(** * Supervision core of nonebot-plugin-gocqhttp: [process/process.py]

    A shallow embedding of the module: the log grammar ([LOG_REGEX] and the
    [ProcessLog] model), the process-wide directory [REGISTERED_PROCESSES],
    the [GoCQProcess] object with its constructor, the restart loop run by
    the daemon thread, [status] and [listen_log].

    Conventions.
    - A Python [str] is modelled by a Rocq [string], read as the UTF-8
      encoding of the text (the encoding the worker's pipe is opened with).
      The character classes [\d] and the blank characters removed by
      [str.strip] are taken over ASCII; decimal digits and blanks outside
      ASCII are not represented.
    - Python exceptions are values of [exn]; a statement that can raise
      returns a [result] and keeps the state it had reached.
    - What the operating system and the other execution contexts do (the
      output of a worker, its exit code, a concurrent [stop()]) is given
      to the model as a script, one [worker_run] per spawn. *)

From Stdlib Require Import ZArith QArith Ascii String List Bool Lia.
From stdpp Require Import base option list gmap strings pretty.

Local Open Scope string_scope.
Local Open Scope Z_scope.
Local Open Scope list_scope.

(** ** Characters and strings *)

Definition str := string.

Definition chars (s : str) : list ascii := list_ascii_of_string s.
Definition text (l : list ascii) : str := string_of_list_ascii l.

(** [ord(c)] *)
Definition ord (c : ascii) : nat := nat_of_ascii c.

Definition newline : ascii := ascii_of_nat 10.

(** [str.isspace] on ASCII: tab, line feed, vertical tab, form feed,
    carriage return, the four separators 28..31 and the space. *)
Definition isspace (c : ascii) : bool :=
  let n := ord c in
  ((9 <=? n)%nat && (n <=? 13)%nat) || ((28 <=? n)%nat && (n <=? 32)%nat).

Definition isdigit (c : ascii) : bool :=
  let n := ord c in (48 <=? n)%nat && (n <=? 57)%nat.

Definition in_range (lo hi c : ascii) : bool :=
  (ord lo <=? ord c)%nat && (ord c <=? ord hi)%nat.


Fixpoint lstrip (l : list ascii) : list ascii :=
  match l with
  | c :: l' => if isspace c then lstrip l' else l
  | [] => []
  end.

(** [str.strip()] with no argument. *)
Definition strip (s : str) : str :=
  text (rev (lstrip (rev (lstrip (chars s))))).

Fixpoint starts_with (p l : list ascii) : bool :=
  match p, l with
  | [], _ => true
  | a :: p', b :: l' => Ascii.eqb a b && starts_with p' l'
  | _ :: _, [] => false
  end.

Fixpoint infix_of (p l : list ascii) : bool :=
  starts_with p l ||
  match l with
  | _ :: l' => infix_of p l'
  | [] => false
  end.

(** [needle in haystack] on strings. *)
Definition contains (needle haystack : str) : bool :=
  infix_of (chars needle) (chars haystack).

(** ** The fragment of Python's [re] that [LOG_REGEX] is written in *)

Inductive cclass : Type :=
| Digit                       (* \d *)
| Range (lo hi : ascii)       (* [lo-hi] *)
| Dot.                        (* .  (no DOTALL: anything but a line feed) *)

Definition in_class (k : cclass) (c : ascii) : bool :=
  match k with
  | Digit => isdigit c
  | Range lo hi => in_range lo hi c
  | Dot => negb (Ascii.eqb c newline)
  end.

Inductive regex : Type :=
| Eps
| Bol                               (* ^ *)
| Eol                               (* $ *)
| Lit (c : ascii)
| Cls (k : cclass)
| Rep (n : nat) (r : regex)         (* r{n} *)
| Star (k : cclass)                 (* k*   greedy *)
| PlusLazy (k : cclass)             (* k+?  lazy *)
| Named (name : str) (r : regex)    (* (?P<name>r) *)
| Cat (r1 r2 : regex).

Declare Scope regex_scope.
Delimit Scope regex_scope with re.
Bind Scope regex_scope with regex.
Infix ":+" := Cat (at level 60, right associativity) : regex_scope.

Fixpoint lits (l : list ascii) : regex :=
  match l with
  | [] => Eps
  | c :: l' => Cat (Lit c) (lits l')
  end.

(** A literal piece of a pattern. *)
Definition Str (s : str) : regex := lits (chars s).

Abbreviation groups := (gmap string str).

Section Matcher.
(** Length of the whole subject: [^] holds where nothing is consumed. *)
Variable subject_len : nat.
Context {R : Type}.

(** Backtracking matcher in continuation-passing style: [exec r s g k]
    matches [r] at the front of the remaining input [s] and hands what is
    left to [k]; the alternatives of [Star] and [PlusLazy] are tried in
    the order of the [re] module (longest first, resp. shortest first). *)
Fixpoint exec (r : regex) (s : list ascii) (g : groups)
    (k : list ascii -> groups -> option R) {struct r} : option R :=
  match r with
  | Eps => k s g
  | Bol => if (length s =? subject_len)%nat then k s g else None
  | Eol =>
      match s with
      | [] => k s g
      | [c] => if Ascii.eqb c newline then k s g else None
      | _ => None
      end
  | Lit c =>
      match s with
      | c' :: s' => if Ascii.eqb c c' then k s' g else None
      | [] => None
      end
  | Cls cl =>
      match s with
      | c' :: s' => if in_class cl c' then k s' g else None
      | [] => None
      end
  | Rep n r' =>
      (fix rep (n : nat) (s : list ascii) (g : groups) : option R :=
         match n with
         | O => k s g
         | S n' => exec r' s g (fun s' g' => rep n' s' g')
         end) n s g
  | Star cl =>
      (fix star (s : list ascii) : option R :=
         match s with
         | c' :: s' =>
             if in_class cl c'
             then match star s' with
                  | Some res => Some res
                  | None => k s g
                  end
             else k s g
         | [] => k s g
         end) s
  | PlusLazy cl =>
      (fix plus (s : list ascii) : option R :=
         match s with
         | c' :: s' =>
             if in_class cl c'
             then match k s' g with
                  | Some res => Some res
                  | None => plus s'
                  end
             else None
         | [] => None
         end) s
  | Named name r' =>
      exec r' s g
        (fun s' g' =>
           k s' (<[name := text (take (length s - length s') s)]> g'))
  | Cat r1 r2 => exec r1 s g (fun s' g' => exec r2 s' g' k)
  end.
End Matcher.

(** [pattern.match(subject)]: anchored at position 0, not required to reach
    the end; the value is [groupdict()] of the match. *)
Definition re_match (r : regex) (subject : str) : option groups :=
  exec (length (chars subject)) r (chars subject) ∅ (fun _ g => Some g).

Definition d : regex := Cls Digit.

Definition LOG_REGEX : regex :=
  (Bol
   :+ Lit "[" :+ Named "time"
       (Rep 4 d :+ Lit "-" :+ d :+ d :+ Lit "-" :+ d :+ d :+ Lit " "
        :+ d :+ d :+ Lit ":" :+ d :+ d :+ Lit ":" :+ d :+ d)
   :+ Str "] "
   :+ Lit "[" :+ Named "level" (PlusLazy (Range "A" "Z")) :+ Str "]: "
   :+ Named "message" (Star Dot)
   :+ Eol)%re.

Definition LOG_LEVELS : gset string :=
  {[ "DEBUG"; "INFO"; "WARNING"; "ERROR"; "FATAL" ]}.

(** ** Timestamps and the [ProcessLog] model *)

Record datetime : Type := {
  year : Z; month : Z; day : Z;
  hour : Z; minute : Z; second : Z
}.

Definition is_leap (y : Z) : bool :=
  (y mod 4 =? 0) && negb (y mod 100 =? 0) || (y mod 400 =? 0).

Definition days_in_month (y m : Z) : Z :=
  match m with
  | 2 => if is_leap y then 29 else 28
  | 4 | 6 | 9 | 11 => 30
  | _ => 31
  end.

(** The constructor [datetime(y, mo, d, h, mi, s)]: [ValueError] outside
    MINYEAR..MAXYEAR, the calendar, or the clock. *)
Definition datetime_new (y mo d h mi s : Z) : option datetime :=
  if (1 <=? y) && (y <=? 9999) && (1 <=? mo) && (mo <=? 12)
     && (1 <=? d) && (d <=? days_in_month y mo)
     && (0 <=? h) && (h <=? 23) && (0 <=? mi) && (mi <=? 59)
     && (0 <=? s) && (s <=? 59)
  then Some {| year := y; month := mo; day := d;
               hour := h; minute := mi; second := s |}
  else None.

Definition digit_value (c : ascii) : Z := Z.of_nat (ord c) - 48.

(** [int(s)] on a string of decimal digits. *)
Definition int_of (l : list ascii) : Z :=
  fold_left (fun acc c => 10 * acc + digit_value c) l 0.

(** The six numbers of a text laid out as [dddd-dd-dd dd:dd:dd], the one
    layout that the group [time] of [LOG_REGEX] can hold. *)
Definition time_fields (l : list ascii) : option (Z * Z * Z * Z * Z * Z) :=
  match l with
  | [y1; y2; y3; y4; a; m1; m2; b; d1; d2; c; h1; h2; e; n1; n2; f; s1; s2] =>
      if forallb isdigit [y1; y2; y3; y4; m1; m2; d1; d2; h1; h2; n1; n2; s1; s2]
         && Ascii.eqb a "-" && Ascii.eqb b "-" && Ascii.eqb c " "
         && Ascii.eqb e ":" && Ascii.eqb f ":"
      then Some (int_of [y1; y2; y3; y4], int_of [m1; m2], int_of [d1; d2],
                 int_of [h1; h2], int_of [n1; n2], int_of [s1; s2])
      else None
  | _ => None
  end.

(** Coercion of a string to the [datetime] field [time] by the model
    class, on that layout: the six numbers are read and handed to
    [datetime]; [None] stands for the validation error. *)
Definition parse_datetime (s : str) : option datetime :=
  match time_fields (chars s) with
  | Some (y, mo, d, h, mi, se) => datetime_new y mo d h mi se
  | None => None
  end.

Record ProcessLog : Type := {
  raw : str;
  time : datetime;
  level : option str;
  message : option str
}.

(** ** Exceptions and results *)

(** The exceptions that the module raises or meets; all of them derive
    from [Exception], so [except Exception] catches every one. *)
Inductive exn : Type :=
| AttributeError (attr : str)
| ValueError (msg : str)
| RuntimeError (msg : str)
| ValidationError (field : str)      (* pydantic *)
| OSError                            (* subprocess.Popen could not start *)
| TimeoutExpired                     (* Popen.wait(timeout) *)
| NoSuchProcess (pid : Z).           (* psutil *)

Inductive result (A : Type) : Type :=
| Return (a : A)
| Raise (e : exn).
Arguments Return {A} a.
Arguments Raise {A} e.

(** [ProcessLog(raw=raw, **kw)]: a keyword that is absent takes the
    default of its field ([datetime.now()] for [time], [None] for [level]
    and [message]); [now] is the clock at the time of the call. *)
Definition ProcessLog_new (now : datetime) (raw : str) (kw : groups)
    : result ProcessLog :=
  match kw !! "time" with
  | Some t =>
      match parse_datetime t with
      | Some tm =>
          Return {| raw := raw; time := tm;
                    level := kw !! "level"; message := kw !! "message" |}
      | None => Raise (ValidationError "time")
      end
  | None =>
      Return {| raw := raw; time := now;
                level := kw !! "level"; message := kw !! "message" |}
  end.

(** Lines 144-149 of [_daemon_thread_runner]: one stripped line of output
    to one record. *)
Definition parse_log (now : datetime) (output : str) : result ProcessLog :=
  match re_match LOG_REGEX output with
  | Some log_matched => ProcessLog_new now output log_matched
  | None => ProcessLog_new now output ∅
  end.

(** ** Objects of the module *)

(** Of the account configuration only the number [uin] is read here. *)
Record AccountConfig : Type := { uin : Z }.

(** [ACCOUNTS_DATA_PATH / str(uin)] *)
Inductive path : Type := AccountData (uin : Z).

(** The handle of a spawned worker: [returncode] stays [None] until a
    [poll()] or [wait()] has collected the exit status. *)
Record Popen : Type := { pid : Z; returncode : option Z }.

(** A callable, up to identity (what [set] hashes and compares). *)
Definition LogListener := nat.
Definition EventLoop := nat.
(** Identity of a Python object. *)
Definition obj := nat.

Record Thread : Type := { name : str; started : bool }.

(** The attributes of one instance. Every attribute that [__init__] or
    [start] assigns is absent ([None]) on a fresh object; [process] has the
    class-level default [None], so reading it never fails. *)
Module attr.
Record GoCQProcess : Type := {
  process : option Popen;
  account : option AccountConfig;
  cwd : option path;
  loop : option EventLoop;
  stop_timeout : option Z;
  kill_timeout : option Z;
  max_restarts : option Z;
  restart_interval : option Z;
  log_listeners : option (gset LogListener);
  log_counter : option Z;
  restarted : option Z;
  daemon_thread : option Thread;
  daemon_thread_running : option bool
}.

(** [object.__new__(GoCQProcess)] *)
Definition fresh : GoCQProcess :=
  {| process := None; account := None; cwd := None; loop := None;
     stop_timeout := None; kill_timeout := None; max_restarts := None;
     restart_interval := None; log_listeners := None; log_counter := None;
     restarted := None; daemon_thread := None;
     daemon_thread_running := None |}.

(** [o.<name> = v], one function per attribute. *)
Definition set_process (v : option Popen) (o : GoCQProcess)
    : GoCQProcess :=
  {| process := v;
     account := account o;
     cwd := cwd o;
     loop := loop o;
     stop_timeout := stop_timeout o;
     kill_timeout := kill_timeout o;
     max_restarts := max_restarts o;
     restart_interval := restart_interval o;
     log_listeners := log_listeners o;
     log_counter := log_counter o;
     restarted := restarted o;
     daemon_thread := daemon_thread o;
     daemon_thread_running := daemon_thread_running o |}.

Definition set_account (v : option AccountConfig) (o : GoCQProcess)
    : GoCQProcess :=
  {| process := process o;
     account := v;
     cwd := cwd o;
     loop := loop o;
     stop_timeout := stop_timeout o;
     kill_timeout := kill_timeout o;
     max_restarts := max_restarts o;
     restart_interval := restart_interval o;
     log_listeners := log_listeners o;
     log_counter := log_counter o;
     restarted := restarted o;
     daemon_thread := daemon_thread o;
     daemon_thread_running := daemon_thread_running o |}.

Definition set_cwd (v : option path) (o : GoCQProcess)
    : GoCQProcess :=
  {| process := process o;
     account := account o;
     cwd := v;
     loop := loop o;
     stop_timeout := stop_timeout o;
     kill_timeout := kill_timeout o;
     max_restarts := max_restarts o;
     restart_interval := restart_interval o;
     log_listeners := log_listeners o;
     log_counter := log_counter o;
     restarted := restarted o;
     daemon_thread := daemon_thread o;
     daemon_thread_running := daemon_thread_running o |}.

Definition set_loop (v : option EventLoop) (o : GoCQProcess)
    : GoCQProcess :=
  {| process := process o;
     account := account o;
     cwd := cwd o;
     loop := v;
     stop_timeout := stop_timeout o;
     kill_timeout := kill_timeout o;
     max_restarts := max_restarts o;
     restart_interval := restart_interval o;
     log_listeners := log_listeners o;
     log_counter := log_counter o;
     restarted := restarted o;
     daemon_thread := daemon_thread o;
     daemon_thread_running := daemon_thread_running o |}.

Definition set_stop_timeout (v : option Z) (o : GoCQProcess)
    : GoCQProcess :=
  {| process := process o;
     account := account o;
     cwd := cwd o;
     loop := loop o;
     stop_timeout := v;
     kill_timeout := kill_timeout o;
     max_restarts := max_restarts o;
     restart_interval := restart_interval o;
     log_listeners := log_listeners o;
     log_counter := log_counter o;
     restarted := restarted o;
     daemon_thread := daemon_thread o;
     daemon_thread_running := daemon_thread_running o |}.

Definition set_kill_timeout (v : option Z) (o : GoCQProcess)
    : GoCQProcess :=
  {| process := process o;
     account := account o;
     cwd := cwd o;
     loop := loop o;
     stop_timeout := stop_timeout o;
     kill_timeout := v;
     max_restarts := max_restarts o;
     restart_interval := restart_interval o;
     log_listeners := log_listeners o;
     log_counter := log_counter o;
     restarted := restarted o;
     daemon_thread := daemon_thread o;
     daemon_thread_running := daemon_thread_running o |}.

Definition set_max_restarts (v : option Z) (o : GoCQProcess)
    : GoCQProcess :=
  {| process := process o;
     account := account o;
     cwd := cwd o;
     loop := loop o;
     stop_timeout := stop_timeout o;
     kill_timeout := kill_timeout o;
     max_restarts := v;
     restart_interval := restart_interval o;
     log_listeners := log_listeners o;
     log_counter := log_counter o;
     restarted := restarted o;
     daemon_thread := daemon_thread o;
     daemon_thread_running := daemon_thread_running o |}.

Definition set_restart_interval (v : option Z) (o : GoCQProcess)
    : GoCQProcess :=
  {| process := process o;
     account := account o;
     cwd := cwd o;
     loop := loop o;
     stop_timeout := stop_timeout o;
     kill_timeout := kill_timeout o;
     max_restarts := max_restarts o;
     restart_interval := v;
     log_listeners := log_listeners o;
     log_counter := log_counter o;
     restarted := restarted o;
     daemon_thread := daemon_thread o;
     daemon_thread_running := daemon_thread_running o |}.

Definition set_log_listeners (v : option (gset LogListener)) (o : GoCQProcess)
    : GoCQProcess :=
  {| process := process o;
     account := account o;
     cwd := cwd o;
     loop := loop o;
     stop_timeout := stop_timeout o;
     kill_timeout := kill_timeout o;
     max_restarts := max_restarts o;
     restart_interval := restart_interval o;
     log_listeners := v;
     log_counter := log_counter o;
     restarted := restarted o;
     daemon_thread := daemon_thread o;
     daemon_thread_running := daemon_thread_running o |}.

Definition set_log_counter (v : option Z) (o : GoCQProcess)
    : GoCQProcess :=
  {| process := process o;
     account := account o;
     cwd := cwd o;
     loop := loop o;
     stop_timeout := stop_timeout o;
     kill_timeout := kill_timeout o;
     max_restarts := max_restarts o;
     restart_interval := restart_interval o;
     log_listeners := log_listeners o;
     log_counter := v;
     restarted := restarted o;
     daemon_thread := daemon_thread o;
     daemon_thread_running := daemon_thread_running o |}.

Definition set_restarted (v : option Z) (o : GoCQProcess)
    : GoCQProcess :=
  {| process := process o;
     account := account o;
     cwd := cwd o;
     loop := loop o;
     stop_timeout := stop_timeout o;
     kill_timeout := kill_timeout o;
     max_restarts := max_restarts o;
     restart_interval := restart_interval o;
     log_listeners := log_listeners o;
     log_counter := log_counter o;
     restarted := v;
     daemon_thread := daemon_thread o;
     daemon_thread_running := daemon_thread_running o |}.

Definition set_daemon_thread (v : option Thread) (o : GoCQProcess)
    : GoCQProcess :=
  {| process := process o;
     account := account o;
     cwd := cwd o;
     loop := loop o;
     stop_timeout := stop_timeout o;
     kill_timeout := kill_timeout o;
     max_restarts := max_restarts o;
     restart_interval := restart_interval o;
     log_listeners := log_listeners o;
     log_counter := log_counter o;
     restarted := restarted o;
     daemon_thread := v;
     daemon_thread_running := daemon_thread_running o |}.

Definition set_daemon_thread_running (v : option bool) (o : GoCQProcess)
    : GoCQProcess :=
  {| process := process o;
     account := account o;
     cwd := cwd o;
     loop := loop o;
     stop_timeout := stop_timeout o;
     kill_timeout := kill_timeout o;
     max_restarts := max_restarts o;
     restart_interval := restart_interval o;
     log_listeners := log_listeners o;
     log_counter := log_counter o;
     restarted := restarted o;
     daemon_thread := daemon_thread o;
     daemon_thread_running := v |}.

End attr.
Export attr(GoCQProcess).

Inductive ProcessInfo : Type :=
| RunningProcessInfo (status : str) (total_logs restarts : Z)
    (pid memory_used swap_used : Z) (cpu_percent start_time : Q)
| StoppedProcessInfo (status : str) (total_logs restarts : Z) (code : Z).

(** What [psutil] reads from the process table for one pid. *)
Record ps_entry : Type := {
  ps_status : str; ps_rss : Z; ps_vms : Z;
  ps_cpu_percent : Q; ps_create_time : Q
}.

(** Effects that leave the thread: the logger, the operating system, the
    event loop, the clock. *)
Inductive event : Type :=
| Spawned (pid : Z)                                   (* Popen(...) *)
| LogInfo (msg : str)                                 (* logger.info *)
| Scheduled (listener : LogListener) (log : ProcessLog) (on : EventLoop)
                                                      (* run_coroutine_threadsafe *)
| Terminate (pid : Z)                                 (* process.terminate() *)
| LogException (msg : str) (e : exn)                  (* logger.exception *)
| LogWarning (uin : Z) (code : option Z) (restarted : nat) (max_restarts : Z)
                                                      (* logger.warning *)
| Slept (seconds : Z).                                (* sleep(...) *)

Record state : Type := {
  REGISTERED_PROCESSES : gmap Z obj;    (* the module-level directory *)
  this : GoCQProcess;                   (* the attributes of [self] *)
  proc_table : gmap Z ps_entry;         (* live and zombie processes *)
  trace : list event                    (* newest first *)
}.

(** ** State and exceptions *)

Definition M (A : Type) : Type := state -> result A * state.

#[global] Instance M_ret : MRet M := fun A a s => (Return a, s).
#[global] Instance M_bind : MBind M := fun A B f m s =>
  match m s with
  | (Return a, s') => f a s'
  | (Raise e, s') => (Raise e, s')
  end.

Definition raise {A} (e : exn) : M A := fun s => (Raise e, s).

(** [try: c  except Exception as e: h e] *)
Definition try_except {A} (c : M A) (h : exn -> M A) : M A := fun s =>
  match c s with
  | (Return a, s') => (Return a, s')
  | (Raise e, s') => h e s'
  end.

(** [self.<name>] *)
Definition getattr {A} (name : str) (field : GoCQProcess -> option A) : M A :=
  fun s =>
    match field (this s) with
    | Some v => (Return v, s)
    | None => (Raise (AttributeError name), s)
    end.

(** [self.<name> = v] *)
Definition setattr (upd : GoCQProcess -> GoCQProcess) : M unit := fun s =>
  (Return tt,
   {| REGISTERED_PROCESSES := REGISTERED_PROCESSES s; this := upd (this s);
      proc_table := proc_table s; trace := trace s |}).

Definition emit (e : event) : M unit := fun s =>
  (Return tt,
   {| REGISTERED_PROCESSES := REGISTERED_PROCESSES s; this := this s;
      proc_table := proc_table s; trace := e :: trace s |}).

Definition registry : M (gmap Z obj) := fun s => (Return (REGISTERED_PROCESSES s), s).

Definition set_registry (f : gmap Z obj -> gmap Z obj) : M unit := fun s =>
  (Return tt,
   {| REGISTERED_PROCESSES := f (REGISTERED_PROCESSES s); this := this s;
      proc_table := proc_table s; trace := trace s |}).

Definition table : M (gmap Z ps_entry) := fun s => (Return (proc_table s), s).

Definition set_table (f : gmap Z ps_entry -> gmap Z ps_entry) : M unit := fun s =>
  (Return tt,
   {| REGISTERED_PROCESSES := REGISTERED_PROCESSES s; this := this s;
      proc_table := f (proc_table s); trace := trace s |}).

Definition lift {A} (r : result A) : M A := fun s => (r, s).

(** [self.process]: the class attribute makes the read total. *)
Definition get_process : M (option Popen) := fun s =>
  (Return (attr.process (this s)), s).

(** ** [GoCQProcess.listen_log] *)

Definition listen_log (listener : LogListener) : M LogListener :=
  listeners ← getattr "log_listeners" attr.log_listeners;
  setattr (attr.set_log_listeners (Some ({[listener]} ∪ listeners)));;
  mret listener.

(** The closure [process_log] of [__init__] (lines 90-93): the text and the
    level under which a record reaches the operator console. [STDOUT_name]
    is [STDOUT.name] of the package's [log] module. *)
Definition process_log (STDOUT_name : str) (log : ProcessLog) : str * str :=
  let message :=
    match message log with
    | Some m => if String.eqb m EmptyString then raw log else m   (* [or] *)
    | None => raw log
    end in
  let level :=
    match level log with
    | Some l => if decide (l ∈ LOG_LEVELS) then l else STDOUT_name
    | None => STDOUT_name
    end in
  (level, message).

(** ** [GoCQProcess.__init__] *)

(** [asyncio.get_running_loop()] *)
Definition get_running_loop (running : option EventLoop) : M EventLoop :=
  match running with
  | Some lp => mret lp
  | None => raise (RuntimeError "no running event loop")
  end.

(** Lines 75-78: the entry of the new object in the directory. [self] is
    the identity of the object under construction. *)
Definition register_self (self : obj) (account : AccountConfig) : M unit :=
  registered ← registry;
  match registered !! uin account with
  | None =>
      a ← getattr "account" attr.account;
      set_registry <[uin a := self]>
  | Some _ =>
      raise (ValueError ("Account " +:+ pretty (uin account)
                         +:+ " process is already registered."))
  end.

(** Lines 80-124: the attributes. [process_log] is the identity of the
    closure defined at lines 90-93, [running] the event loop of the calling
    context, if it has one. *)
Definition set_attributes (process_log : LogListener)
    (running : option EventLoop)
    (account : AccountConfig)
    (kill_timeout stop_timeout max_restarts restart_interval : Z)
    (print_process_log : bool) : M unit :=
  setattr (attr.set_account (Some account));;
  setattr (attr.set_cwd (Some (AccountData (uin account))));;
  lp ← get_running_loop running;
  setattr (attr.set_loop (Some lp));;
  setattr (attr.set_stop_timeout (Some stop_timeout));;
  setattr (attr.set_kill_timeout (Some kill_timeout));;
  setattr (attr.set_max_restarts (Some max_restarts));;
  setattr (attr.set_restart_interval (Some restart_interval));;
  setattr (attr.set_log_listeners (Some ∅));;
  setattr (attr.set_log_counter (Some 0));;
  setattr (attr.set_restarted (Some 0));;
  (if print_process_log then listen_log process_log;; mret tt else mret tt);;
  a ← getattr "account" attr.account;
  setattr (attr.set_daemon_thread
             (Some {| name := pretty (uin a) +:+ "-Daemon"; started := false |})).

Definition __init__ (self : obj) (process_log : LogListener)
    (running : option EventLoop)
    (account : AccountConfig)
    (kill_timeout stop_timeout max_restarts restart_interval : Z)
    (print_process_log : bool) : M unit :=
  register_self self account;;
  set_attributes process_log running account kill_timeout stop_timeout
    max_restarts restart_interval print_process_log.

(** [GoCQProcess(account, ...)]: a fresh object, then [__init__] on it. The
    value is the new object when [__init__] returns. *)
Definition GoCQProcess_new (self : obj) (process_log : LogListener)
    (running : option EventLoop) (account : AccountConfig)
    (kill_timeout stop_timeout max_restarts restart_interval : Z)
    (print_process_log : bool) : M obj :=
  setattr (fun _ => attr.fresh);;
  __init__ self process_log running account kill_timeout stop_timeout
    max_restarts restart_interval print_process_log;;
  mret self.

(** Modelled from the spec: [unregister(identity)] of the Supervisor
    Directory, which the module does not define; it removes the entry of
    the identity from the mapping. *)
Definition unregister (identity : Z) : M unit :=
  set_registry (delete identity).

(** ** The worker, as the thread meets it *)

(** One spawn of the worker binary, told by the environment. *)
Record worker_run : Type := {
  (** [Popen(...)]: the pid and the entry the process table gets, or
      [None] when the binary cannot be started ([OSError]). *)
  w_spawn : option (Z * ps_entry);
  (** What the successive [readline()] calls return before the end of the
      stream, each with the clock at the time its record is built. *)
  w_output : list (str * datetime);
  (** Whether another context calls [stop()] once the output has ended and
      before the thread looks at the exit status. *)
  w_stop : bool;
  (** The exit status that [terminate()] and [wait(kill_timeout)] collect;
      [None] when the wait times out. *)
  w_exit : option Z
}.

Definition READY_MARKER : str := "アトリは、高性能ですから!".

(** [time.sleep] *)
Definition sleep (seconds : Z) : M unit :=
  if seconds <? 0 then raise (ValueError "sleep length must be non-negative")
  else emit (Slept seconds).

(** ** [GoCQProcess.stop] *)

Definition stop : M unit :=
  setattr (attr.set_daemon_thread_running (Some false));;
  p ← get_process;
  match p with
  | Some p => emit (Terminate (pid p))
  | None => mret tt
  end;;
  _ ← getattr "daemon_thread" attr.daemon_thread;   (* is_alive(), join(stop_timeout) *)
  mret tt.

(** ** [GoCQProcess._daemon_thread_runner] *)

Definition spawn (w : worker_run) : M Popen :=
  match w_spawn w with
  | Some (p, e) =>
      set_table <[p := e]>;;
      emit (Spawned p);;
      mret {| pid := p; returncode := None |}
  | None => raise OSError
  end.

(** [for listener in self.log_listeners: run_coroutine_threadsafe(...)] *)
Fixpoint dispatch (listeners : list LogListener) (log_model : ProcessLog) : M unit :=
  match listeners with
  | [] => mret tt
  | listener :: rest =>
      lp ← getattr "loop" attr.loop;
      emit (Scheduled listener log_model lp);;
      dispatch rest log_model
  end.

(** [for output in iter(self.process.stdout.readline, ""): ...] *)
Fixpoint read_lines (outputs : list (str * datetime)) : M unit :=
  match outputs with
  | [] => mret tt
  | (line, now) :: rest =>
      if String.eqb line EmptyString then mret tt
      else
        let output := strip line in
        (if contains READY_MARKER output
         then a ← getattr "account" attr.account;
              emit (LogInfo ("go-cqhttp for " +:+ pretty (uin a)
                             +:+ " has successfully started."))
         else mret tt);;
        n ← getattr "log_counter" attr.log_counter;
        setattr (attr.set_log_counter (Some (n + 1)));;
        log_model ← lift (parse_log now output);
        listeners ← getattr "log_listeners" attr.log_listeners;
        dispatch (elements listeners) log_model;;
        read_lines rest
  end.

Definition _daemon_thread_runner (w : worker_run) : M (option Z) :=
  _ ← getattr "cwd" attr.cwd;
  p ← spawn w;
  setattr (attr.set_process (Some p));;
  read_lines (w_output w);;
  (if w_stop w then stop else mret tt);;
  p ← get_process;
  match p with
  | None => raise (AttributeError "returncode")
  | Some p =>
      match returncode p with
      | None =>
          emit (Terminate (pid p));;
          _ ← getattr "kill_timeout" attr.kill_timeout;
          match w_exit w with
          | Some c =>
              (* the exit status is collected: the pid leaves the table *)
              set_table (delete (pid p));;
              setattr (attr.set_process
                         (Some {| pid := pid p; returncode := Some c |}))
          | None => raise TimeoutExpired
          end
      | Some _ => mret tt
      end
  end;;
  p ← get_process;
  match p with
  | None => raise (AttributeError "returncode")
  | Some p => mret (returncode p)
  end.

(** ** The closure [daemon_thread_runner] of [__init__] *)

(** The two tests at the head of the loop body: [true] to go on, [false]
    for [break]. *)
Definition loop_guard (restarted : nat) : M bool :=
  running ← getattr "daemon_thread_running" attr.daemon_thread_running;
  if negb running then mret false
  else
    m ← getattr "max_restarts" attr.max_restarts;
    if (m >=? 0) && (Z.of_nat restarted >=? m) then mret false
    else mret true.

(** The rest of the loop body, lines 104-117. *)
Definition iteration (w : worker_run) (restarted : nat) : M unit :=
  code ←
    try_except (_daemon_thread_runner w)
      (fun e =>
         t ← getattr "daemon_thread" attr.daemon_thread;
         emit (LogException ("Thread '" +:+ name t
                             +:+ "' raised unknown exception:") e);;
         mret (Some 0));
  a ← getattr "account" attr.account;
  m ← getattr "max_restarts" attr.max_restarts;
  emit (LogWarning (uin a) code restarted m);;
  r ← getattr "restarted" attr.restarted;
  setattr (attr.set_restarted (Some (r + 1)));;
  interval ← getattr "restart_interval" attr.restart_interval;
  sleep interval.

(** [for restarted in count(): ...]. The runs of the worker are taken
    from [world]; [None] when the loop asks for a run that the script
    does not have. *)
Fixpoint daemon_thread_runner (world : list worker_run) (restarted : nat)
    (s : state) : option (result unit * state) :=
  match loop_guard restarted s with
  | (Raise e, s') => Some (Raise e, s')
  | (Return false, s') => Some (Return tt, s')
  | (Return true, s') =>
      match world with
      | [] => None
      | w :: world' =>
          match iteration w restarted s' with
          | (Raise e, s'') => Some (Raise e, s'')
          | (Return _, s'') => daemon_thread_runner world' (S restarted) s''
          end
      end
  end.

(** ** [GoCQProcess.start] *)

(** [Thread.start()] *)
Definition Thread_start : M unit :=
  t ← getattr "daemon_thread" attr.daemon_thread;
  if started t then raise (RuntimeError "threads can only be started once")
  else setattr (attr.set_daemon_thread
                  (Some {| name := name t; started := true |})).

(** Lines 164-165; the two generators of configuration files, which come
    first, are outside this module. *)
Definition start : M unit :=
  setattr (attr.set_daemon_thread_running (Some true));;
  Thread_start.

(** [start()], then the daemon thread on the given script. *)
Definition supervise (world : list worker_run) (s : state)
    : option (result unit * state) :=
  match start s with
  | (Return _, s') => daemon_thread_runner world 0 s'
  | (Raise e, s') => Some (Raise e, s')
  end.

(** ** [GoCQProcess.status] *)

(** [psutil.Process(pid)]: the pid must be in the process table. *)
Definition psutil_Process (pid : Z) : M ps_entry :=
  t ← table;
  match t !! pid with
  | Some e => mret e
  | None => raise (NoSuchProcess pid)
  end.

Definition status : M ProcessInfo :=
  p ← get_process;
  match p with
  | None => raise (RuntimeError "Process not started yet.")
  | Some p =>
      process_status ← psutil_Process (pid p);
      match returncode p with
      | None =>
          total_logs ← getattr "log_counter" attr.log_counter;
          restarts ← getattr "restarted" attr.restarted;
          mret (RunningProcessInfo (ps_status process_status)
                  total_logs restarts (pid p)
                  (ps_rss process_status) (ps_vms process_status)
                  (ps_cpu_percent process_status)
                  (ps_create_time process_status))
      | Some c =>
          total_logs ← getattr "log_counter" attr.log_counter;
          restarts ← getattr "restarted" attr.restarted;
          mret (StoppedProcessInfo (ps_status process_status)
                  total_logs restarts c)
      end
  end.

(** ** Reading a run *)

Definition is_spawn (e : event) : bool :=
  match e with Spawned _ => true | _ => false end.

(** Number of times the worker was spawned. *)
Definition spawns (s : state) : nat :=
  length (List.filter is_spawn (trace s)).

(** An instance as [__init__] leaves it when it runs to its end. *)
Definition constructed (account : AccountConfig) (lp : EventLoop)
    (kill_timeout stop_timeout max_restarts restart_interval : Z)
    (listeners : gset LogListener) : GoCQProcess :=
  {| attr.process := None;
     attr.account := Some account;
     attr.cwd := Some (AccountData (uin account));
     attr.loop := Some lp;
     attr.stop_timeout := Some stop_timeout;
     attr.kill_timeout := Some kill_timeout;
     attr.max_restarts := Some max_restarts;
     attr.restart_interval := Some restart_interval;
     attr.log_listeners := Some listeners;
     attr.log_counter := Some 0;
     attr.restarted := Some 0;
     attr.daemon_thread :=
       Some {| name := pretty (uin account) +:+ "-Daemon"; started := false |};
     attr.daemon_thread_running := None |}.

Definition initial (o : GoCQProcess) : state :=
  {| REGISTERED_PROCESSES := ∅; this := o; proc_table := ∅; trace := [] |}.

(** ** The scenarios of the specification *)

Module Scenario.
Definition account : AccountConfig := {| uin := 10001 |}.

Definition entry : ps_entry :=
  {| ps_status := "running"; ps_rss := 4096; ps_vms := 8192;
     ps_cpu_percent := 0%Q; ps_create_time := 0%Q |}.

Definition clock : datetime :=
  {| year := 2024; month := 1; day := 1;
     hour := 0; minute := 0; second := 1 |}.

(** What [readline()] returns for a line of output. *)
Definition line (s : str) : str := s +:+ String newline EmptyString.

(** Emits [[2024-01-01 00:00:00] [INFO]: ready], exits with code 0. *)
Definition ready_run : worker_run :=
  {| w_spawn := Some (4242, entry);
     w_output := [(line "[2024-01-01 00:00:00] [INFO]: ready", clock)];
     w_stop := false;
     w_exit := Some 0 |}.

(** Emits [garbage output], exits with code 1. *)
Definition garbage_run : worker_run :=
  {| w_spawn := Some (4242, entry);
     w_output := [(line "garbage output", clock)];
     w_stop := false;
     w_exit := Some 1 |}.

(** Emits nothing and ends because [stop()] was called. *)
Definition stopped_run : worker_run :=
  {| w_spawn := Some (4242, entry);
     w_output := [];
     w_stop := true;
     w_exit := Some (-15) |}.

(** The binary cannot be started. *)
Definition failing_run : worker_run :=
  {| w_spawn := None; w_output := []; w_stop := false; w_exit := None |}.

(** A supervisor with the default timeouts, no listener, and the given
    restart policy. *)
Definition supervisor (max_restarts restart_interval : Z) : state :=
  initial (constructed account 0%nat 5 6 max_restarts restart_interval ∅).
End Scenario.

(** ** Vocabulary of the statements *)

(** The state in which the constructor is abandoned: a fresh object and
    nothing else touched. *)
Definition abandoned (s : state) : state :=
  {| REGISTERED_PROCESSES := REGISTERED_PROCESSES s; this := attr.fresh;
     proc_table := proc_table s; trace := trace s |}.

(** One attempt to construct a supervisor. *)
Record attempt : Type := {
  at_self : obj; at_process_log : LogListener;
  at_running : option EventLoop; at_account : AccountConfig;
  at_kill_timeout : Z; at_stop_timeout : Z;
  at_max_restarts : Z; at_restart_interval : Z;
  at_print_process_log : bool
}.

(** The constructor call of an attempt. *)
Definition construct (a : attempt) : M obj :=
  GoCQProcess_new (at_self a) (at_process_log a) (at_running a)
    (at_account a) (at_kill_timeout a) (at_stop_timeout a)
    (at_max_restarts a) (at_restart_interval a) (at_print_process_log a).

(** The states that a series of constructor calls goes through. *)
Fixpoint construct_all (l : list attempt) (s : state) : list (result obj) * state :=
  match l with
  | [] => ([], s)
  | a :: l' =>
      let (r, s') := construct a s in
      let (rs, s'') := construct_all l' s' in
      (r :: rs, s'')
  end.

(** A statement keeps a relation when every state is related to the one
    the statement leaves, whether it returns or raises. *)
Definition keeps {A} (R : relation state) (c : M A) : Prop :=
  forall s, R s (c s).2.

(** The part of the state that a run of the worker does not write: the
    directory and the attributes other than [process], [log_counter] and
    [daemon_thread_running]. *)
Record same_config (s s' : state) : Prop := {
  sc_registry : REGISTERED_PROCESSES s' = REGISTERED_PROCESSES s;
  sc_account : attr.account (this s') = attr.account (this s);
  sc_cwd : attr.cwd (this s') = attr.cwd (this s);
  sc_loop : attr.loop (this s') = attr.loop (this s);
  sc_stop_timeout : attr.stop_timeout (this s') = attr.stop_timeout (this s);
  sc_kill_timeout : attr.kill_timeout (this s') = attr.kill_timeout (this s);
  sc_max_restarts : attr.max_restarts (this s') = attr.max_restarts (this s);
  sc_restart_interval :
    attr.restart_interval (this s') = attr.restart_interval (this s);
  sc_log_listeners : attr.log_listeners (this s') = attr.log_listeners (this s);
  sc_restarted : attr.restarted (this s') = attr.restarted (this s);
  sc_daemon_thread : attr.daemon_thread (this s') = attr.daemon_thread (this s)
}.

(** The handle of the worker and the process table. *)
Definition same_handle (s s' : state) : Prop :=
  attr.process (this s') = attr.process (this s)
  /\ proc_table s' = proc_table s.

(** The run flag. *)
Definition same_flag (s s' : state) : Prop :=
  attr.daemon_thread_running (this s') = attr.daemon_thread_running (this s).

(** The number of spawns so far. *)
Definition same_spawns (s s' : state) : Prop := spawns s' = spawns s.

(** What the loop body does once the run of the worker is over, with the
    code it has for the run: warn, count, sleep. *)
Definition after_run (a : AccountConfig) (m interval r : Z) (restarted : nat)
    (code : option Z) (s : state) : state :=
  {| REGISTERED_PROCESSES := REGISTERED_PROCESSES s;
     this := attr.set_restarted (Some (r + 1)) (this s);
     proc_table := proc_table s;
     trace := Slept interval :: LogWarning (uin a) code restarted m :: trace s |}.

(** What the [except] branch of the loop body does. *)
Definition logged_exception (t : Thread) (e : exn) (s : state) : state :=
  {| REGISTERED_PROCESSES := REGISTERED_PROCESSES s;
     this := this s;
     proc_table := proc_table s;
     trace := LogException ("Thread '" +:+ name t
                            +:+ "' raised unknown exception:") e :: trace s |}.

(** Whether a run gets as far as a worker process. *)
Definition spawned (w : worker_run) : nat :=
  match w_spawn w with Some _ => 1 | None => 0 end.

(** ... and how many runs of a script do. *)
Definition spawned_in (l : list worker_run) : nat :=
  foldr (fun w n => (spawned w + n)%nat) 0%nat l.

(** The state once [Popen] has started a worker. *)
Definition with_worker (p : Z) (ent : ps_entry) (s : state) : state :=
  {| REGISTERED_PROCESSES := REGISTERED_PROCESSES s; this := this s;
     proc_table := <[p := ent]> (proc_table s);
     trace := Spawned p :: trace s |}.

(** A started supervisor whose run flag is up. *)
Record ready (s : state) (a : AccountConfig) (m interval : Z) : Prop := {
  rd_account : attr.account (this s) = Some a;
  rd_cwd : is_Some (attr.cwd (this s));
  rd_max_restarts : attr.max_restarts (this s) = Some m;
  rd_restart_interval : attr.restart_interval (this s) = Some interval;
  rd_daemon_thread : is_Some (attr.daemon_thread (this s));
  rd_flag : attr.daemon_thread_running (this s) = Some true
}.




(** The records that were handed to the event loop, each with the listener
    it is for, oldest first. *)
Definition scheduled (s : state) : list (LogListener * ProcessLog) :=
  omap (fun e => match e with
                 | Scheduled l r _ => Some (l, r)
                 | _ => None
                 end) (rev (trace s)).

(** What one record costs in schedulings: one per listener, in the order
    in which the set is iterated. *)
Definition fan_out (L : gset LogListener) (rs : list ProcessLog)
    : list (LogListener * ProcessLog) :=
  flat_map (fun r => map (fun l => (l, r)) (elements L)) rs.

(** A line that the reading loop takes and turns into the record [r]. *)
Definition builds (out : str * datetime) (r : ProcessLog) : Prop :=
  out.1 <> EmptyString /\ parse_log out.2 (strip out.1) = Return r.

(** An attribute that holds a number and has not gone down (or is still
    unset). *)
Definition not_below (before after : option Z) : Prop :=
  match before, after with
  | Some x, Some y => x <= y
  | None, None => True
  | _, _ => False
  end.

(** Neither counter of the supervisor has gone down. *)
Definition counters_grow (s s' : state) : Prop :=
  not_below (attr.log_counter (this s)) (attr.log_counter (this s'))
  /\ not_below (attr.restarted (this s)) (attr.restarted (this s')).

(** The records that a listener was handed, oldest first. *)
Definition received (c : LogListener) (s : state) : list ProcessLog :=
  map snd (List.filter (fun p => Nat.eqb p.1 c) (scheduled s)).

(** The first statements of the reading loop's body, lines 136-143: the
    marker is looked for and the line is counted. *)
Definition count_line (line : str) : M unit :=
  (if contains READY_MARKER (strip line)
   then a ← getattr "account" attr.account;
        emit (LogInfo ("go-cqhttp for " +:+ pretty (uin a)
                       +:+ " has successfully started."))
   else mret tt);;
  n ← getattr "log_counter" attr.log_counter;
  setattr (attr.set_log_counter (Some (n + 1))).

(** * Properties *)

(** ** The directory and the constructor *)

Ltac run_M :=
  cbv [mbind M_bind mret M_ret raise lift getattr setattr emit registry
       set_registry table set_table get_process try_except].

(** An identity that is already in the directory: [ValueError], and the
    directory is left as it was. *)
Lemma duplicate_registration_raises (s : state) (self o : obj)
    (pl : LogListener) (running : option EventLoop) (account : AccountConfig)
    (kt st mr ri : Z) (ppl : bool) :
  REGISTERED_PROCESSES s !! uin account = Some o ->
  exists s',
    GoCQProcess_new self pl running account kt st mr ri ppl s
    = (Raise (ValueError ("Account " +:+ pretty (uin account)
                          +:+ " process is already registered.")), s')
    /\ REGISTERED_PROCESSES s' = REGISTERED_PROCESSES s.
Proof.
  intros Hreg. unfold GoCQProcess_new, __init__, register_self. run_M. simpl.
  rewrite Hreg. eexists. split; reflexivity.
Qed.

Lemma new_unregistered (s : state) (self : obj) (pl : LogListener)
    (running : option EventLoop) (account : AccountConfig)
    (kt st mr ri : Z) (ppl : bool) :
  REGISTERED_PROCESSES s !! uin account = None ->
  GoCQProcess_new self pl running account kt st mr ri ppl s
  = (Raise (AttributeError "account"), abandoned s).
Proof.
  intros Hreg. unfold GoCQProcess_new, __init__, register_self. run_M. simpl.
  rewrite Hreg. reflexivity.
Qed.

(** Past the registration, the statements of [__init__] do build the
    instance that [constructed] describes. *)
Lemma set_attributes_constructed (s : state) (pl : LogListener)
    (lp : EventLoop) (account : AccountConfig) (kt st mr ri : Z) (ppl : bool) :
  this s = attr.fresh ->
  set_attributes pl (Some lp) account kt st mr ri ppl s
  = (Return tt,
     {| REGISTERED_PROCESSES := REGISTERED_PROCESSES s;
        this := constructed account lp kt st mr ri
                  (if ppl then {[pl]} ∪ ∅ else ∅);
        proc_table := proc_table s; trace := trace s |}).
Proof.
  intros Hfresh. unfold set_attributes, listen_log, get_running_loop. run_M.
  simpl. rewrite Hfresh. destruct ppl; reflexivity.
Qed.

(** C2: for an identity that is not in the directory, constructing a
    supervisor raises (the attribute [account] of the new object is read
    before it is assigned) and the directory is left unchanged: the
    identity is still not registered afterwards. *)
Theorem C2_unregistered_identity_cannot_be_constructed (s : state)
    (self : obj) (pl : LogListener) (running : option EventLoop)
    (account : AccountConfig) (kt st mr ri : Z) (ppl : bool) :
  REGISTERED_PROCESSES s !! uin account = None ->
  exists s',
    GoCQProcess_new self pl running account kt st mr ri ppl s
    = (Raise (AttributeError "account"), s')
    /\ REGISTERED_PROCESSES s' = REGISTERED_PROCESSES s
    /\ REGISTERED_PROCESSES s' !! uin account = None.
Proof.
  intros Hreg. exists (abandoned s).
  split; [now apply new_unregistered | split; [reflexivity | exact Hreg]].
Qed.

Lemma C2_witness :
  exists s',
    GoCQProcess_new 7%nat 1%nat (Some 0%nat) Scenario.account 5 6 (-1) 3 true
      (initial attr.fresh)
    = (Raise (AttributeError "account"), s')
    /\ REGISTERED_PROCESSES s' = REGISTERED_PROCESSES (initial attr.fresh)
    /\ REGISTERED_PROCESSES s' !! uin Scenario.account = None.
Proof.
  apply (C2_unregistered_identity_cannot_be_constructed
           (initial attr.fresh) 7%nat 1%nat (Some 0%nat) Scenario.account
           5 6 (-1) 3 true).
  reflexivity.
Defined.

(** Starting from the empty directory no series of constructor calls ever
    registers anything, and every call raises. *)
Lemma directory_stays_empty (l : list attempt) (s : state) :
  REGISTERED_PROCESSES s = ∅ ->
  REGISTERED_PROCESSES (construct_all l s).2 = ∅
  /\ Forall (fun r => r = Raise (AttributeError "account")) (construct_all l s).1.
Proof.
  revert s. induction l as [|a l IH]; intros s Hs; simpl.
  - split; [assumption | constructor].
  - unfold construct. rewrite new_unregistered
      by (rewrite Hs; apply lookup_empty).
    destruct (IH (abandoned s)) as [IH1 IH2]; [exact Hs|].
    destruct (construct_all l (abandoned s)) as [rs s'']. simpl in *.
    split; [assumption | constructor; auto].
Qed.

(** C7: an identity that is in the directory is refused with the
    duplicate-registration error and the directory keeps its entry; once
    the entry is removed, constructing a supervisor for the identity
    raises [AttributeError] and registers nothing. *)
Theorem C7_reregistration_after_unregister_raises :
  let s0 := {| REGISTERED_PROCESSES := {[ 10001 := 7%nat ]};
               this := attr.fresh; proc_table := ∅; trace := [] |} in
  (exists s1,
     GoCQProcess_new 8%nat 1%nat (Some 0%nat) Scenario.account 5 6 (-1) 3 true s0
     = (Raise (ValueError "Account 10001 process is already registered."), s1)
     /\ REGISTERED_PROCESSES s1 = REGISTERED_PROCESSES s0)
  /\ (exists s1 s2,
        unregister 10001 s0 = (Return tt, s1)
        /\ REGISTERED_PROCESSES s1 !! 10001 = None
        /\ GoCQProcess_new 8%nat 1%nat (Some 0%nat) Scenario.account 5 6 (-1) 3 true s1
           = (Raise (AttributeError "account"), s2)
        /\ REGISTERED_PROCESSES s2 !! 10001 = None).
Proof.
  intros s0. split.
  - destruct (duplicate_registration_raises s0 8%nat 7%nat 1%nat (Some 0%nat)
                Scenario.account 5 6 (-1) 3 true) as (s1 & H1 & H2).
    { reflexivity. }
    exists s1. split; [|assumption]. rewrite H1. reflexivity.
  - exists (unregister 10001 s0).2, (abandoned (unregister 10001 s0).2).
    split; [reflexivity|]. split; [reflexivity|].
    split; [|reflexivity].
    apply new_unregistered. reflexivity.
Qed.

(** ** The listener registry *)

(** C10: [listen_log] returns the callback it was given, and registering
    the same callback a second time changes nothing: the state after two
    registrations is the state after one, and on an empty registry the
    two registrations leave exactly one entry. *)
Theorem C10_listen_log_returns_argument_and_is_idempotent (s : state)
    (L : gset LogListener) (c : LogListener) :
  attr.log_listeners (this s) = Some L ->
  exists s1,
    listen_log c s = (Return c, s1)
    /\ attr.log_listeners (this s1) = Some ({[c]} ∪ L)
    /\ c ∈ ({[c]} ∪ L)
    /\ listen_log c s1 = (Return c, s1)
    /\ (L = ∅ -> size ({[c]} ∪ L) = 1%nat).
Proof.
  intros HL. unfold listen_log. run_M. rewrite HL. simpl.
  eexists. split; [reflexivity|]. simpl.
  split; [reflexivity|]. split; [set_solver|]. split.
  - rewrite (assoc_L (∪)), (idemp_L (∪) {[c]}). reflexivity.
  - intros ->. rewrite (right_id_L ∅ (∪)). apply size_singleton.
Qed.

Lemma C10_witness :
  exists s1,
    listen_log 3%nat (Scenario.supervisor (-1) 3) = (Return 3%nat, s1)
    /\ attr.log_listeners (this s1) = Some ({[3%nat]} ∪ ∅)
    /\ 3%nat ∈ ({[3%nat]} ∪ (∅ : gset LogListener))
    /\ listen_log 3%nat s1 = (Return 3%nat, s1)
    /\ ((∅ : gset LogListener) = ∅ -> size ({[3%nat]} ∪ (∅ : gset LogListener)) = 1%nat).
Proof.
  apply (C10_listen_log_returns_argument_and_is_idempotent
           (Scenario.supervisor (-1) 3) ∅ 3%nat).
  reflexivity.
Defined.

(** ** What a statement leaves alone *)

Section Keeps.
Context (R : relation state) `{!PreOrder R}.

Lemma keeps_ret {A} (a : A) : keeps R (mret a).
Proof. intros s. reflexivity. Qed.

Lemma keeps_raise {A} (e : exn) : keeps R (raise e : M A).
Proof. intros s. reflexivity. Qed.

Lemma keeps_lift {A} (r : result A) : keeps R (lift r).
Proof. intros s. reflexivity. Qed.

Lemma keeps_getattr {A} (n : str) (f : GoCQProcess -> option A) :
  keeps R (getattr n f).
Proof. intros s. unfold getattr. destruct (f (this s)); reflexivity. Qed.

Lemma keeps_get_process : keeps R get_process.
Proof. intros s. reflexivity. Qed.

Lemma keeps_table : keeps R table.
Proof. intros s. reflexivity. Qed.

Lemma keeps_bind {A B} (c : M A) (f : A -> M B) :
  keeps R c -> (forall a, keeps R (f a)) -> keeps R (c ≫= f).
Proof.
  intros Hc Hf s. unfold mbind, M_bind.
  specialize (Hc s). destruct (c s) as [[a|e] s']; simpl in *.
  - etransitivity; [exact Hc | apply Hf].
  - exact Hc.
Qed.

Lemma keeps_try {A} (c : M A) (h : exn -> M A) :
  keeps R c -> (forall e, keeps R (h e)) -> keeps R (try_except c h).
Proof.
  intros Hc Hh s. unfold try_except.
  specialize (Hc s). destruct (c s) as [[a|e] s']; simpl in *.
  - exact Hc.
  - etransitivity; [exact Hc | apply Hh].
Qed.
End Keeps.

#[global] Instance same_config_preorder : PreOrder same_config.
Proof.
  split.
  - intros s. split; reflexivity.
  - intros s1 s2 s3 [] []. split; congruence.
Qed.

#[global] Instance same_handle_preorder : PreOrder same_handle.
Proof.
  split.
  - intros s. split; reflexivity.
  - intros s1 s2 s3 [] []. split; congruence.
Qed.

Lemma emit_config (e : event) : keeps same_config (emit e).
Proof. intros s. split; reflexivity. Qed.

Lemma emit_handle (e : event) : keeps same_handle (emit e).
Proof. intros s. split; reflexivity. Qed.

Create HintDb keeps discriminated.
#[global] Hint Resolve keeps_ret keeps_raise keeps_lift keeps_getattr
  keeps_get_process keeps_table emit_config emit_handle : keeps.

Ltac keeps_step :=
  match goal with
  | |- keeps _ (_ ≫= _) => apply keeps_bind; [typeclasses eauto| |intros ?]
  | |- keeps _ (try_except _ _) => apply keeps_try; [typeclasses eauto| |intros ?]
  | |- keeps _ (if ?b then _ else _) => destruct b
  | |- keeps _ (match ?x with _ => _ end) => destruct x
  | |- keeps _ (setattr _) => intros ?; first [reflexivity | split; reflexivity]
  | |- keeps _ (set_table _) => intros ?; first [reflexivity | split; reflexivity]
  | |- keeps _ (emit _) => intros ?; reflexivity
  | |- keeps _ _ => solve [eauto with keeps typeclass_instances]
  end.

Lemma dispatch_config (ls : list LogListener) (log : ProcessLog) :
  keeps same_config (dispatch ls log).
Proof. induction ls; simpl; repeat keeps_step. Qed.

Lemma dispatch_handle (ls : list LogListener) (log : ProcessLog) :
  keeps same_handle (dispatch ls log).
Proof. induction ls; simpl; repeat keeps_step. Qed.

Lemma read_lines_config (outputs : list (str * datetime)) :
  keeps same_config (read_lines outputs).
Proof.
  induction outputs as [|[line now] rest IH]; simpl; repeat keeps_step;
    auto using dispatch_config.
Qed.

Lemma read_lines_handle (outputs : list (str * datetime)) :
  keeps same_handle (read_lines outputs).
Proof.
  induction outputs as [|[line now] rest IH]; simpl; repeat keeps_step;
    auto using dispatch_handle.
Qed.

Lemma stop_config : keeps same_config stop.
Proof. unfold stop. repeat keeps_step. Qed.

Lemma stop_handle : keeps same_handle stop.
Proof. unfold stop. repeat keeps_step. Qed.

(** A run of the worker writes neither the directory nor the
    configuration of the supervisor nor its restart counter. *)
Lemma run_config (w : worker_run) : keeps same_config (_daemon_thread_runner w).
Proof.
  unfold _daemon_thread_runner, spawn.
  repeat keeps_step; auto using read_lines_config, stop_config.
Qed.

Lemma run_handle_after_output (w : worker_run) :
  keeps same_handle (read_lines (w_output w) ≫= fun _ =>
                     if w_stop w then stop else mret tt).
Proof.
  repeat keeps_step; auto using read_lines_handle, stop_handle.
Qed.

(** ** The restart loop *)


(** The loop ends at its head when the loop counter has reached a bound
    that is not negative. *)
Lemma loop_ends_when_exhausted (world : list worker_run) (restarted : nat)
    (s : state) (m : Z) :
  attr.daemon_thread_running (this s) = Some true ->
  attr.max_restarts (this s) = Some m ->
  0 <= m <= Z.of_nat restarted ->
  daemon_thread_runner world restarted s = Some (Return tt, s).
Proof.
  intros Hflag Hm Hle.
  assert ((m >=? 0) && (Z.of_nat restarted >=? m) = true) as Hg.
  { apply andb_true_iff. split; apply Z.geb_le; lia. }
  destruct world; simpl; unfold loop_guard; run_M;
    rewrite Hflag; simpl; rewrite Hm, Hg; reflexivity.
Qed.

Lemma loop_guard_open (restarted : nat) (s : state) (m : Z) :
  attr.daemon_thread_running (this s) = Some true ->
  attr.max_restarts (this s) = Some m ->
  m < 0 \/ Z.of_nat restarted < m ->
  loop_guard restarted s = (Return true, s).
Proof.
  intros Hflag Hm Hlt.
  assert ((m >=? 0) && (Z.of_nat restarted >=? m) = false) as Hg.
  { apply andb_false_iff. destruct Hlt; [left | right]; rewrite Z.geb_leb; apply Z.leb_gt; lia. }
  unfold loop_guard; run_M. rewrite Hflag; simpl; rewrite Hm, Hg. reflexivity.
Qed.

Section Iteration.
Context (w : worker_run) (restarted : nat) (s : state).
Context (a : AccountConfig) (m interval r : Z) (t : Thread).
Hypothesis Haccount : attr.account (this s) = Some a.
Hypothesis Hmax : attr.max_restarts (this s) = Some m.
Hypothesis Hthread : attr.daemon_thread (this s) = Some t.
Hypothesis Hrestarted : attr.restarted (this s) = Some r.
Hypothesis Hinterval : attr.restart_interval (this s) = Some interval.
Hypothesis Hsleep : 0 <= interval.

Lemma sleep_ok (s' : state) :
  sleep interval s'
  = (Return tt,
     {| REGISTERED_PROCESSES := REGISTERED_PROCESSES s'; this := this s';
        proc_table := proc_table s'; trace := Slept interval :: trace s' |}).
Proof.
  unfold sleep. destruct (Z.ltb_spec interval 0); [lia | reflexivity].
Qed.

(** A run that returns: its code is reported and the counter goes up. *)
Lemma iteration_returned (code : option Z) (s1 : state) :
  _daemon_thread_runner w s = (Return code, s1) ->
  iteration w restarted s
  = (Return tt, after_run a m interval r restarted code s1).
Proof.
  intros Hrun. destruct (run_config w s) as [].
  rewrite Hrun in *. simpl in *.
  unfold iteration. run_M. rewrite Hrun.
  rewrite sc_account0, Haccount, sc_max_restarts0, Hmax. simpl.
  rewrite sc_restarted0, Hrestarted. simpl.
  rewrite sc_restart_interval0, Hinterval. simpl.
  rewrite sleep_ok. reflexivity.
Qed.

(** A run that raises: the exception is logged, the code reported is 0,
    and the counter goes up all the same. *)
Lemma iteration_raised (e : exn) (s1 : state) :
  _daemon_thread_runner w s = (Raise e, s1) ->
  iteration w restarted s
  = (Return tt,
     after_run a m interval r restarted (Some 0) (logged_exception t e s1)).
Proof.
  intros Hrun. destruct (run_config w s) as [].
  rewrite Hrun in *. simpl in *.
  unfold iteration. run_M. rewrite Hrun.
  rewrite sc_daemon_thread0, Hthread. simpl.
  rewrite sc_account0, Haccount. simpl.
  rewrite sc_max_restarts0, Hmax. simpl.
  rewrite sc_restarted0, Hrestarted. simpl.
  rewrite sc_restart_interval0, Hinterval. simpl.
  rewrite sleep_ok. reflexivity.
Qed.
End Iteration.



(** ** The restart budget *)

(** C1: with [max_restarts = 0] the loop leaves at its first test, before
    any run: whatever the worker would print, it is never spawned, the two
    counters stay at 0, no handle is stored, and [status()] raises the
    not-started error. *)
Theorem C1_zero_budget_never_spawns (world : list worker_run)
    (a : AccountConfig) (lp : EventLoop) (kt st interval : Z)
    (L : gset LogListener) :
  exists s',
    supervise world (initial (constructed a lp kt st 0 interval L))
    = Some (Return tt, s')
    /\ spawns s' = 0%nat
    /\ attr.process (this s') = None
    /\ attr.log_counter (this s') = Some 0
    /\ attr.restarted (this s') = Some 0
    /\ (status s').1 = Raise (RuntimeError "Process not started yet.").
Proof.
  eexists. split.
  - unfold supervise, start, Thread_start. run_M. simpl.
    destruct world; simpl; reflexivity.
  - repeat split; reflexivity.
Qed.

(** The scenario of C1 itself. *)
Example zero_budget_scenario :
  exists s',
    supervise [Scenario.ready_run] (Scenario.supervisor 0 3)
    = Some (Return tt, s')
    /\ spawns s' = 0%nat
    /\ attr.log_counter (this s') = Some 0
    /\ trace s' = [].
Proof. eexists. split; [vm_compute; reflexivity | repeat split]. Qed.

(** C4: with [max_restarts = 2] and [restart_interval = 0], a worker that
    prints [garbage output] and exits with code 1 is spawned twice, not
    three times; the counter [restarted] is 2 when the loop ends, and the
    third run of the script is never asked for. *)
Theorem C4_budget_two_gives_two_spawns :
  exists s',
    supervise [Scenario.garbage_run; Scenario.garbage_run; Scenario.garbage_run]
      (Scenario.supervisor 2 0)
    = Some (Return tt, s')
    /\ spawns s' = 2%nat
    /\ attr.restarted (this s') = Some 2
    /\ attr.log_counter (this s') = Some 2
    /\ supervise [Scenario.garbage_run; Scenario.garbage_run]
         (Scenario.supervisor 2 0)
       = Some (Return tt, s').
Proof.
  eexists. split; [vm_compute; reflexivity | repeat split].
Qed.

(** C3: a worker that ends because [stop()] was called is counted like any
    other exit: the run flag is down, no restart follows, and [restarted]
    has gone from 0 to 1. *)
Theorem C3_planned_exit_is_counted :
  exists s',
    supervise [Scenario.stopped_run] (Scenario.supervisor 3 0)
    = Some (Return tt, s')
    /\ attr.daemon_thread_running (this s') = Some false
    /\ spawns s' = 1%nat
    /\ attr.restarted (this s') = Some 1.
Proof.
  eexists. split; [vm_compute; reflexivity | repeat split].
Qed.

(** ** [status] *)

Lemma status_not_started (s : state) :
  attr.process (this s) = None ->
  status s = (Raise (RuntimeError "Process not started yet."), s).
Proof. intros H. unfold status. run_M. rewrite H. reflexivity. Qed.

(** A handle without exit code whose pid is in the process table: the
    running snapshot, with the pid of the handle. *)
Lemma status_running (s : state) (p : Popen) (e : ps_entry) (n r : Z) :
  attr.process (this s) = Some p ->
  returncode p = None ->
  proc_table s !! pid p = Some e ->
  attr.log_counter (this s) = Some n ->
  attr.restarted (this s) = Some r ->
  status s
  = (Return (RunningProcessInfo (ps_status e) n r (pid p) (ps_rss e)
               (ps_vms e) (ps_cpu_percent e) (ps_create_time e)), s).
Proof.
  intros Hp Hc He Hn Hr. unfold status, psutil_Process. run_M.
  rewrite Hp, He, Hc, Hn, Hr. reflexivity.
Qed.

(** A handle with an exit code: the stopped snapshot if the process table
    still knows the pid ... *)
Lemma status_stopped (s : state) (p : Popen) (c : Z) (e : ps_entry) (n r : Z) :
  attr.process (this s) = Some p ->
  returncode p = Some c ->
  proc_table s !! pid p = Some e ->
  attr.log_counter (this s) = Some n ->
  attr.restarted (this s) = Some r ->
  status s = (Return (StoppedProcessInfo (ps_status e) n r c), s).
Proof.
  intros Hp Hc He Hn Hr. unfold status, psutil_Process. run_M.
  rewrite Hp, He, Hc, Hn, Hr. reflexivity.
Qed.

(** ... and [NoSuchProcess] if it does not: the table is asked before the
    exit code is looked at. *)
Lemma status_reaped (s : state) (p : Popen) :
  attr.process (this s) = Some p ->
  proc_table s !! pid p = None ->
  status s = (Raise (NoSuchProcess (pid p)), s).
Proof.
  intros Hp He. unfold status, psutil_Process. run_M.
  rewrite Hp, He. reflexivity.
Qed.

Lemma bind_Return {A B} (c : M A) (f : A -> M B) (s s' : state) (b : B) :
  (c ≫= f) s = (Return b, s') ->
  exists a s1, c s = (Return a, s1) /\ f a s1 = (Return b, s').
Proof.
  unfold mbind, M_bind. destruct (c s) as [[a|e] s1]; [eauto | discriminate].
Qed.

Lemma getattr_Return {A} (n : str) (f : GoCQProcess -> option A)
    (s s' : state) (v : A) :
  getattr n f s = (Return v, s') -> f (this s) = Some v /\ s' = s.
Proof.
  unfold getattr. destruct (f (this s)); [|discriminate].
  intros [= -> ->]. auto.
Qed.

(** A run that returns has collected the exit status of its worker: the
    handle carries the code and the pid has left the process table. *)
Lemma run_reaps (w : worker_run) (s s' : state) (code : option Z) :
  _daemon_thread_runner w s = (Return code, s') ->
  exists p c,
    attr.process (this s') = Some {| pid := p; returncode := Some c |}
    /\ code = Some c
    /\ proc_table s' !! p = None.
Proof.
  unfold _daemon_thread_runner. intros H.
  apply bind_Return in H as (cwd & s0 & _ & H).
  apply bind_Return in H as (p0 & s1 & Hsp & H).
  apply bind_Return in H as ([] & s2 & Hset & H).
  apply bind_Return in H as ([] & s3 & Hread & H).
  apply bind_Return in H as ([] & s4 & Hstop & H).
  apply bind_Return in H as (p1 & s5 & Hget & H).
  apply bind_Return in H as ([] & s6 & Hexit & H).
  apply bind_Return in H as (p2 & s7 & Hget2 & H).
  (* the handle that was stored *)
  unfold spawn in Hsp. destruct (w_spawn w) as [[p ent]|]; [|discriminate].
  revert Hsp. run_M. intros [= <- <-].
  revert Hset. run_M. simpl. intros [= Hs2].
  (* reading the output and a concurrent stop leave it alone *)
  pose proof (read_lines_handle (w_output w) s2) as [Hp3 _].
  rewrite Hread in Hp3. simpl in Hp3.
  assert (attr.process (this s4) = attr.process (this s3)) as Hp4.
  { destruct (w_stop w).
    - pose proof (stop_handle s3) as [Hp _]. rewrite Hstop in Hp. exact Hp.
    - revert Hstop. run_M. intros [= <-]. reflexivity. }
  revert Hget. unfold get_process. intros [= <- <-].
  rewrite Hp4, Hp3 in Hexit. subst s2. simpl in Hexit.
  (* the exit status *)
  revert Hexit. run_M. simpl.
  destruct (attr.kill_timeout (this s4)); [|discriminate].
  destruct (w_exit w) as [c|]; [|discriminate].
  simpl. intros [= <-].
  revert Hget2. unfold get_process. simpl. intros [= <- <-].
  revert H. run_M. simpl. intros [= <- <-].
  exists p, c. simpl. repeat split. apply lookup_delete_eq.
Qed.

(** After any run of the worker that returned, [status()] raises. *)
Lemma status_after_run (w : worker_run) (s s' : state) (code : option Z) :
  _daemon_thread_runner w s = (Return code, s') ->
  exists p, (status s').1 = Raise (NoSuchProcess p).
Proof.
  intros Hrun. destruct (run_reaps _ _ _ _ Hrun) as (p & c & Hp & _ & Ht).
  exists p. rewrite (status_reaped s' _ Hp Ht). reflexivity.
Qed.

(** C6: before any start, [status()] raises the not-started error; while
    the worker is running, it returns the running snapshot with the pid of
    the worker; once the worker has ended and its exit code 1 is stored in
    the handle, [status()] raises [NoSuchProcess] and returns no
    snapshot. *)
Theorem C6_status_of_ended_worker_raises :
  let s0 := Scenario.supervisor 1 0 in
  let running :=
    {| REGISTERED_PROCESSES := ∅;
       this := attr.set_process (Some {| pid := 4242; returncode := None |})
                 (this s0);
       proc_table := {[ 4242 := Scenario.entry ]};
       trace := [Spawned 4242] |} in
  (status s0).1 = Raise (RuntimeError "Process not started yet.")
  /\ (status running).1
     = Return (RunningProcessInfo "running" 0 0 4242 4096 8192 0%Q 0%Q)
  /\ exists s',
       supervise [Scenario.garbage_run] s0 = Some (Return tt, s')
       /\ attr.process (this s')
          = Some {| pid := 4242; returncode := Some 1 |}
       /\ (status s').1 = Raise (NoSuchProcess 4242).
Proof.
  intros s0 running. split; [reflexivity|]. split; [reflexivity|].
  eexists. split; [vm_compute; reflexivity | split; reflexivity].
Qed.

(** ** The loop under a bound *)

#[global] Instance same_flag_preorder : PreOrder same_flag.
Proof. split; unfold same_flag; [intros s | intros s1 s2 s3]; congruence. Qed.

#[global] Instance same_spawns_preorder : PreOrder same_spawns.
Proof. split; unfold same_spawns; [intros s | intros s1 s2 s3]; congruence. Qed.

Lemma dispatch_flag (ls : list LogListener) (log : ProcessLog) :
  keeps same_flag (dispatch ls log).
Proof. induction ls; simpl; repeat keeps_step. Qed.

Lemma dispatch_spawns (ls : list LogListener) (log : ProcessLog) :
  keeps same_spawns (dispatch ls log).
Proof. induction ls; simpl; repeat keeps_step. Qed.

Lemma read_lines_flag (outputs : list (str * datetime)) :
  keeps same_flag (read_lines outputs).
Proof.
  induction outputs as [|[line now] rest IH]; simpl; repeat keeps_step;
    auto using dispatch_flag.
Qed.

Lemma read_lines_spawns (outputs : list (str * datetime)) :
  keeps same_spawns (read_lines outputs).
Proof.
  induction outputs as [|[line now] rest IH]; simpl; repeat keeps_step;
    auto using dispatch_spawns.
Qed.

Lemma stop_spawns : keeps same_spawns stop.
Proof. unfold stop. repeat keeps_step. Qed.

(** Only [stop()] writes the run flag. *)
Lemma run_flag (w : worker_run) :
  w_stop w = false -> keeps same_flag (_daemon_thread_runner w).
Proof.
  intros Hstop. unfold _daemon_thread_runner, spawn. rewrite Hstop.
  repeat keeps_step; auto using read_lines_flag.
Qed.

Lemma bind_getattr {A B} (n : str) (f : GoCQProcess -> option A)
    (k : A -> M B) (s : state) (v : A) :
  f (this s) = Some v -> (getattr n f ≫= k) s = k v s.
Proof. intros H. unfold mbind, M_bind, getattr. rewrite H. reflexivity. Qed.

Lemma spawn_Some (w : worker_run) (p : Z) (ent : ps_entry) (s : state) :
  w_spawn w = Some (p, ent) ->
  spawn w s = (Return {| pid := p; returncode := None |}, with_worker p ent s).
Proof. intros H. unfold spawn. rewrite H. reflexivity. Qed.

(** A run spawns the worker once, unless the binary cannot be started. *)
Lemma run_spawns (w : worker_run) (s : state) (c : path) :
  attr.cwd (this s) = Some c ->
  spawns (_daemon_thread_runner w s).2 = (spawned w + spawns s)%nat.
Proof.
  intros Hcwd. unfold _daemon_thread_runner, spawned.
  rewrite (bind_getattr _ _ _ _ _ Hcwd).
  destruct (w_spawn w) as [[p ent]|] eqn:Hw.
  - unfold mbind at 1, M_bind at 1. rewrite (spawn_Some _ _ _ _ Hw).
    change (1 + spawns s)%nat with (spawns (with_worker p ent s)).
    match goal with
    | |- spawns (?c _).2 = _ => assert (keeps same_spawns c) as Hk
    end.
    { repeat keeps_step; auto using read_lines_spawns, stop_spawns. }
    apply Hk.
  - unfold mbind at 1, M_bind at 1, spawn. rewrite Hw. reflexivity.
Qed.

Lemma ready_after_iteration (w : worker_run) (s s1 s2 : state)
    (a : AccountConfig) (m interval : Z) (x : result (option Z)) :
  ready s a m interval ->
  w_stop w = false ->
  _daemon_thread_runner w s = (x, s1) ->
  attr.account (this s2) = attr.account (this s1) ->
  attr.cwd (this s2) = attr.cwd (this s1) ->
  attr.max_restarts (this s2) = attr.max_restarts (this s1) ->
  attr.restart_interval (this s2) = attr.restart_interval (this s1) ->
  attr.daemon_thread (this s2) = attr.daemon_thread (this s1) ->
  attr.daemon_thread_running (this s2) = attr.daemon_thread_running (this s1) ->
  ready s2 a m interval.
Proof.
  intros [] Hstop Hrun E1 E2 E3 E4 E5 E6.
  destruct (run_config w s) as []. pose proof (run_flag w Hstop s) as Hflag.
  unfold same_flag in Hflag. rewrite Hrun in *. simpl in *.
  split; congruence.
Qed.

(** Under a bound [m] that is not negative, and as long as nobody calls
    [stop()], the loop that enters with loop counter [k] runs the worker
    [m - k] more times and ends: started from 0, [m] runs in all, the
    first one included, and [restarted] ends at [m]. *)
Theorem bounded_loop_runs_max_restarts_times (world : list worker_run) :
  forall (k : nat) (s : state) (a : AccountConfig) (m interval r : Z),
    ready s a m interval ->
    attr.restarted (this s) = Some r ->
    0 <= interval ->
    Z.of_nat k <= m ->
    Forall (fun w => w_stop w = false) world ->
    (Z.to_nat m - k <= length world)%nat ->
    exists s',
      daemon_thread_runner world k s = Some (Return tt, s')
      /\ ready s' a m interval
      /\ attr.restarted (this s') = Some (r + (m - Z.of_nat k))
      /\ spawns s'
         = (spawned_in (take (Z.to_nat m - k) world) + spawns s)%nat.
Proof.
  induction world as [|w world IH];
    intros k s a m interval r Hready Hr Hint Hk Hstop Hlen.
  - simpl in Hlen. assert (m = Z.of_nat k) as -> by lia.
    exists s. rewrite (loop_ends_when_exhausted [] k s (Z.of_nat k));
      [| apply Hready | apply Hready | lia].
    replace (Z.to_nat (Z.of_nat k) - k)%nat with 0%nat by lia. simpl.
    repeat split; [apply Hready.. | rewrite Hr; f_equal; lia].
  - destruct (Z.eq_dec (Z.of_nat k) m) as [<- | Hne].
    + exists s. rewrite (loop_ends_when_exhausted _ k s (Z.of_nat k));
        [| apply Hready | apply Hready | lia].
      replace (Z.to_nat (Z.of_nat k) - k)%nat with 0%nat by lia. simpl.
      repeat split; [apply Hready.. | rewrite Hr; f_equal; lia].
    + assert (Z.of_nat k < m) as Hlt by lia.
      destruct (rd_daemon_thread _ _ _ _ Hready) as [t Ht].
      destruct (rd_cwd _ _ _ _ Hready) as [c Hc].
      inversion Hstop as [|? ? Hw Hstop']; subst.
      pose proof (run_spawns w s c Hc) as Hsp.
      simpl daemon_thread_runner.
      rewrite (loop_guard_open k s m);
        [| apply Hready | apply Hready | lia].
      destruct (_daemon_thread_runner w s) as [[code|e] s1] eqn:Hrun.
      * rewrite (iteration_returned w k s a m interval r
                   (rd_account _ _ _ _ Hready) (rd_max_restarts _ _ _ _ Hready)
                   Hr (rd_restart_interval _ _ _ _ Hready) Hint code s1 Hrun).
        destruct (IH (S k) (after_run a m interval r k code s1)
                    a m interval (r + 1)) as (s' & Hloop & Hrd & Hr' & Hs');
          [ eapply ready_after_iteration; eauto | reflexivity | lia | lia
          | assumption | simpl in Hlen; lia | ].
        exists s'. split; [exact Hloop|]. split; [exact Hrd|].
        split; [rewrite Hr'; f_equal; lia|].
        rewrite Hs'.
        replace (Z.to_nat m - k)%nat with (S (Z.to_nat m - S k)) by lia.
        simpl in *. unfold spawns in *. simpl. lia.
      * rewrite (iteration_raised w k s a m interval r t
                   (rd_account _ _ _ _ Hready) (rd_max_restarts _ _ _ _ Hready)
                   Ht Hr (rd_restart_interval _ _ _ _ Hready) Hint e s1 Hrun).
        destruct (IH (S k)
                    (after_run a m interval r k (Some 0)
                       (logged_exception t e s1))
                    a m interval (r + 1)) as (s' & Hloop & Hrd & Hr' & Hs');
          [ eapply ready_after_iteration; eauto | reflexivity | lia | lia
          | assumption | simpl in Hlen; lia | ].
        exists s'. split; [exact Hloop|]. split; [exact Hrd|].
        split; [rewrite Hr'; f_equal; lia|].
        rewrite Hs'.
        replace (Z.to_nat m - k)%nat with (S (Z.to_nat m - S k)) by lia.
        simpl in *. unfold spawns in *. simpl. lia.
Qed.

(** ** The matcher, construct by construct *)


Section Exec.
Context (n : nat) {R : Type}.
Implicit Types (s : list ascii) (g : groups)
  (k : list ascii -> groups -> option R) (res : R).

Lemma exec_Cat r1 r2 s g k :
  exec n (Cat r1 r2) s g k = exec n r1 s g (fun s' g' => exec n r2 s' g' k).
Proof. reflexivity. Qed.

Lemma exec_Eps s g k : exec n Eps s g k = k s g.
Proof. reflexivity. Qed.






Lemma exec_Lit_same c s g k : exec n (Lit c) (c :: s) g k = k s g.
Proof. simpl. rewrite Ascii.eqb_refl. reflexivity. Qed.







Lemma exec_lits_app l s g k : exec n (lits l) (l ++ s) g k = k s g.
Proof.
  induction l as [|c l IH]; simpl lits; simpl app.
  - apply exec_Eps.
  - rewrite exec_Cat, exec_Lit_same. apply IH.
Qed.




End Exec.

(** ** The grammar of [LOG_REGEX] *)








(** ** The parser *)








(** C5: the line [[2024-13-01 00:00:00] [INFO]: x] is in the grammar of
    [LOG_REGEX], and building its record raises the validation error of
    the field [time]: the parser is not total. The empty line, a line
    outside the grammar and a line with a date of the calendar do give a
    record. *)
Theorem C5_parser_raises_on_a_date_outside_the_calendar :
  parse_log Scenario.clock "[2024-13-01 00:00:00] [INFO]: x"
  = Raise (ValidationError "time")
  /\ parse_log Scenario.clock EmptyString
     = Return {| raw := EmptyString; time := Scenario.clock;
                 level := None; message := None |}
  /\ parse_log Scenario.clock "garbage output"
     = Return {| raw := "garbage output"; time := Scenario.clock;
                 level := None; message := None |}
  /\ parse_log Scenario.clock "[2024-01-01 00:00:00] [INFO]: ready"
     = Return {| raw := "[2024-01-01 00:00:00] [INFO]: ready";
                 time := {| year := 2024; month := 1; day := 1;
                            hour := 0; minute := 0; second := 0 |};
                 level := Some "INFO"; message := Some "ready" |}.
Proof. repeat split; vm_compute; reflexivity. Qed.





(** The set [LOG_LEVELS] is consulted by the console listener only: what
    it logs under is a member of the set or the level of [STDOUT]. *)
Lemma process_log_level (STDOUT_name : str) (log : ProcessLog) :
  (process_log STDOUT_name log).1 ∈ LOG_LEVELS
  \/ (process_log STDOUT_name log).1 = STDOUT_name.
Proof.
  unfold process_log. simpl. destruct (level log) as [l|]; [|auto].
  destruct (decide (l ∈ LOG_LEVELS)); auto.
Qed.

(** ** Further properties *)



(** X3: under a bound [m >= 0] and without a call of [stop()], the loop
    that starts at 0 runs the worker [m] times in all and leaves
    [restarted] at [m]. *)
Theorem bounded_loop_from_zero (world : list worker_run) (s : state)
    (a : AccountConfig) (m interval : Z) :
  ready s a m interval ->
  attr.restarted (this s) = Some 0 ->
  0 <= interval ->
  0 <= m ->
  Forall (fun w => w_stop w = false) world ->
  (Z.to_nat m <= length world)%nat ->
  exists s',
    daemon_thread_runner world 0 s = Some (Return tt, s')
    /\ attr.restarted (this s') = Some m
    /\ spawns s' = (spawned_in (take (Z.to_nat m) world) + spawns s)%nat.
Proof.
  intros Hready Hr Hint Hm Hstop Hlen.
  destruct (bounded_loop_runs_max_restarts_times world 0 s a m interval 0)
    as (s' & Hloop & _ & Hr' & Hsp); try assumption; try lia.
  exists s'. split; [exact Hloop|]. split.
  - rewrite Hr'. f_equal. lia.
  - rewrite Hsp. rewrite Nat.sub_0_r. reflexivity.
Qed.

Lemma bounded_loop_from_zero_witness :
  exists s',
    daemon_thread_runner
      [Scenario.garbage_run; Scenario.garbage_run; Scenario.garbage_run] 0
      (start (Scenario.supervisor 2 0)).2
    = Some (Return tt, s')
    /\ attr.restarted (this s') = Some 2
    /\ spawns s'
       = (spawned_in
            (take (Z.to_nat 2)
               [Scenario.garbage_run; Scenario.garbage_run; Scenario.garbage_run])
          + spawns (start (Scenario.supervisor 2 0)).2)%nat.
Proof.
  apply (bounded_loop_from_zero
           [Scenario.garbage_run; Scenario.garbage_run; Scenario.garbage_run]
           (start (Scenario.supervisor 2 0)).2 Scenario.account 2 0).
  - split; first [reflexivity | eexists; reflexivity].
  - reflexivity.
  - lia.
  - lia.
  - repeat constructor.
  - simpl. lia.
Defined.

(** X4: from the empty directory, no series of constructor calls registers
    anything, and every one of them raises. *)
Theorem empty_directory_stays_empty (l : list attempt) (s : state) :
  REGISTERED_PROCESSES s = ∅ ->
  REGISTERED_PROCESSES (construct_all l s).2 = ∅
  /\ Forall (fun r => r = Raise (AttributeError "account")) (construct_all l s).1.
Proof. apply directory_stays_empty. Qed.

Lemma empty_directory_stays_empty_witness :
  let l := [ {| at_self := 7%nat; at_process_log := 1%nat;
                at_running := Some 0%nat; at_account := Scenario.account;
                at_kill_timeout := 5; at_stop_timeout := 6;
                at_max_restarts := -1; at_restart_interval := 3;
                at_print_process_log := true |} ] in
  REGISTERED_PROCESSES (construct_all l (initial attr.fresh)).2 = ∅
  /\ Forall (fun r => r = Raise (AttributeError "account"))
       (construct_all l (initial attr.fresh)).1.
Proof.
  apply (empty_directory_stays_empty
           [ {| at_self := 7%nat; at_process_log := 1%nat;
                at_running := Some 0%nat; at_account := Scenario.account;
                at_kill_timeout := 5; at_stop_timeout := 6;
                at_max_restarts := -1; at_restart_interval := 3;
                at_print_process_log := true |} ]
           (initial attr.fresh)).
  reflexivity.
Defined.

(** X5: after any run of the worker that returned, the handle carries the
    exit code, the pid has left the process table, and [status()]
    raises [NoSuchProcess]. *)
Theorem status_raises_after_any_completed_run (w : worker_run) (s s' : state)
    (code : option Z) :
  _daemon_thread_runner w s = (Return code, s') ->
  exists p c,
    attr.process (this s') = Some {| pid := p; returncode := Some c |}
    /\ code = Some c
    /\ proc_table s' !! p = None
    /\ status s' = (Raise (NoSuchProcess p), s').
Proof.
  intros Hrun. destruct (run_reaps _ _ _ _ Hrun) as (p & c & Hp & Hc & Ht).
  exists p, c. repeat split; try assumption.
  apply (status_reaped s' _ Hp Ht).
Qed.

Lemma status_raises_after_any_completed_run_witness :
  let s := (start (Scenario.supervisor 1 0)).2 in
  let s' := (_daemon_thread_runner Scenario.garbage_run s).2 in
  exists p c,
    attr.process (this s') = Some {| pid := p; returncode := Some c |}
    /\ Some 1 = Some c
    /\ proc_table s' !! p = None
    /\ status s' = (Raise (NoSuchProcess p), s').
Proof.
  apply (status_raises_after_any_completed_run Scenario.garbage_run
           (start (Scenario.supervisor 1 0)).2
           (_daemon_thread_runner Scenario.garbage_run
              (start (Scenario.supervisor 1 0)).2).2
           (Some 1)).
  vm_compute. reflexivity.
Defined.

(** A line with a date outside the calendar ends the run it is read in:
    the exception leaves [_daemon_thread_runner] before the worker is
    waited for, so the worker with pid 4242 is still in the process table
    when the next one, pid 4243, is spawned. *)
Example bad_date_abandons_the_worker :
  let bad :=
    {| w_spawn := Some (4242, Scenario.entry);
       w_output := [(Scenario.line "[2024-13-01 00:00:00] [INFO]: x",
                     Scenario.clock)];
       w_stop := false; w_exit := Some 0 |} in
  let next :=
    {| w_spawn := Some (4243, Scenario.entry); w_output := [];
       w_stop := false; w_exit := Some 0 |} in
  exists s',
    supervise [bad; next] (Scenario.supervisor 2 0) = Some (Return tt, s')
    /\ rev (trace s')
       = [ Spawned 4242;
           LogException "Thread '10001-Daemon' raised unknown exception:"
             (ValidationError "time");
           LogWarning 10001 (Some 0) 0 2; Slept 0;
           Spawned 4243; Terminate 4243;
           LogWarning 10001 (Some 0) 1 2; Slept 0 ]
    /\ proc_table s' !! 4242 = Some Scenario.entry
    /\ proc_table s' !! 4243 = None.
Proof.
  intros bad next. eexists. split; [vm_compute; reflexivity|].
  repeat split.
Qed.

(** X6: the constructor never returns: whatever the directory holds, a call
    raises [ValueError] (identity registered) or [AttributeError] (identity
    not registered), and the directory, the process table and the log are
    as before. *)
Theorem constructor_never_returns (s : state) (self : obj) (pl : LogListener)
    (running : option EventLoop) (account : AccountConfig)
    (kt st mr ri : Z) (ppl : bool) :
  exists e,
    GoCQProcess_new self pl running account kt st mr ri ppl s
    = (Raise e, abandoned s)
    /\ (e = AttributeError "account"
        /\ REGISTERED_PROCESSES s !! uin account = None
        \/ e = ValueError ("Account " +:+ pretty (uin account)
                           +:+ " process is already registered.")
           /\ is_Some (REGISTERED_PROCESSES s !! uin account)).
Proof.
  destruct (REGISTERED_PROCESSES s !! uin account) as [o|] eqn:Hreg.
  - eexists. split; [|right; split; [reflexivity | eauto]].
    unfold GoCQProcess_new, __init__, register_self. run_M. simpl.
    rewrite Hreg. reflexivity.
  - eexists. split; [|left; split; [reflexivity | reflexivity]].
    now apply new_unregistered.
Qed.

(** ** Reading and dispatching *)

Lemma scheduled_emit (e : event) (s : state) :
  scheduled (emit e s).2
  = scheduled s ++ match e with
                   | Scheduled l r _ => [(l, r)]
                   | _ => []
                   end.
Proof.
  unfold scheduled. simpl. rewrite omap_app. f_equal.
  destruct e; reflexivity.
Qed.

Lemma scheduled_cons (e : event) (s s' : state) :
  trace s' = e :: trace s ->
  scheduled s'
  = scheduled s ++ match e with
                   | Scheduled l r _ => [(l, r)]
                   | _ => []
                   end.
Proof.
  intros H. unfold scheduled. rewrite H. simpl. rewrite omap_app. f_equal.
  destruct e; reflexivity.
Qed.

(** One record goes to every listener of the list, in the order of the
    list, and nothing else changes. *)
Lemma dispatch_all (ls : list LogListener) (r : ProcessLog) (lp : EventLoop) :
  forall s,
    attr.loop (this s) = Some lp ->
    exists s',
      dispatch ls r s = (Return tt, s')
      /\ this s' = this s
      /\ REGISTERED_PROCESSES s' = REGISTERED_PROCESSES s
      /\ proc_table s' = proc_table s
      /\ spawns s' = spawns s
      /\ scheduled s' = scheduled s ++ map (fun l => (l, r)) ls.
Proof.
  induction ls as [|l ls IH]; intros s Hlp; simpl.
  - exists s. rewrite app_nil_r. repeat split; reflexivity.
  - rewrite (bind_getattr _ _ _ _ _ Hlp).
    unfold mbind at 1, M_bind at 1. simpl.
    destruct (IH (emit (Scheduled l r lp) s).2 Hlp)
      as (s' & Hd & Hthis & Hreg & Htab & Hsp & Hsch).
    rewrite scheduled_emit, <- app_assoc in Hsch.
    exists s'. simpl in *. rewrite Hd.
    repeat split; assumption.
Qed.

(** The lines of a run whose records all build: each one is counted and
    goes to every listener, in the order of the output. *)
Lemma read_lines_good (outputs : list (str * datetime)) (rs : list ProcessLog) :
  Forall2 builds outputs rs ->
  forall (s : state) (a : AccountConfig) (n : Z) (L : gset LogListener)
         (lp : EventLoop),
    attr.account (this s) = Some a ->
    attr.log_counter (this s) = Some n ->
    attr.log_listeners (this s) = Some L ->
    attr.loop (this s) = Some lp ->
    exists s',
      read_lines outputs s = (Return tt, s')
      /\ this s'
         = attr.set_log_counter (Some (n + Z.of_nat (length outputs))) (this s)
      /\ REGISTERED_PROCESSES s' = REGISTERED_PROCESSES s
      /\ proc_table s' = proc_table s
      /\ spawns s' = spawns s
      /\ scheduled s' = scheduled s ++ fan_out L rs.
Proof.
  induction 1 as [|[line now] r outputs rs [Hne Hr] Hall IH];
    intros s a n L lp Ha Hn HL Hlp.
  - exists s. simpl. rewrite Z.add_0_r, app_nil_r.
    repeat split; try reflexivity.
    destruct (this s); simpl in *; subst; reflexivity.
  - simpl in Hne, Hr.
    (* the marker *)
    set (mark := if contains READY_MARKER (strip line)
                 then a0 ← getattr "account" attr.account;
                      emit (LogInfo ("go-cqhttp for " +:+ pretty (uin a0)
                                     +:+ " has successfully started."))
                 else mret tt).
    assert (exists s1,
              mark s = (Return tt, s1)
              /\ this s1 = this s
              /\ REGISTERED_PROCESSES s1 = REGISTERED_PROCESSES s
              /\ proc_table s1 = proc_table s /\ spawns s1 = spawns s
              /\ scheduled s1 = scheduled s)
      as (s1 & Hrun1 & Ht1 & Hr1 & Hp1 & Hsp1 & Hs1).
    { subst mark. destruct (contains READY_MARKER (strip line)).
      - rewrite (bind_getattr _ _ _ _ _ Ha). eexists. split; [reflexivity|].
        repeat split; try reflexivity.
        unfold scheduled. simpl. rewrite omap_app. simpl. apply app_nil_r.
      - exists s. repeat split; reflexivity. }
    (* the counter, the record, the listeners *)
    set (s1' := (setattr (attr.set_log_counter (Some (n + 1))) s1).2).
    destruct (dispatch_all (elements L) r lp s1')
      as (s2 & Hd & Ht2 & Hr2 & Hp2 & Hsp2 & Hs2);
      [subst s1'; simpl; rewrite Ht1; exact Hlp|].
    destruct (IH s2 a (n + 1) L lp) as (s' & Hrl & Ht' & Hr' & Hp' & Hsp' & Hs');
      try (rewrite Ht2; subst s1'; simpl; rewrite Ht1; assumption);
      [rewrite Ht2; reflexivity|].
    exists s'. split.
    { simpl read_lines.
      destruct (String.eqb_spec line EmptyString) as [->|_]; [congruence|].
      fold mark. unfold mbind at 1, M_bind at 1. rewrite Hrun1.
      rewrite (bind_getattr _ _ _ _ n) by (rewrite Ht1; exact Hn).
      unfold mbind at 1, M_bind at 1.
      change (setattr (attr.set_log_counter (Some (n + 1))) s1)
        with (Return tt, s1').
      unfold mbind at 1, M_bind at 1, lift at 1. rewrite Hr.
      rewrite (bind_getattr _ _ _ _ L)
        by (subst s1'; simpl; rewrite Ht1; exact HL).
      unfold mbind at 1, M_bind at 1. rewrite Hd. exact Hrl. }
    split.
    { rewrite Ht', Ht2. subst s1'. simpl. rewrite Ht1.
      replace (n + 1 + Z.of_nat (length outputs))
        with (n + Z.of_nat (S (length outputs))) by lia.
      reflexivity. }
    split; [rewrite Hr', Hr2; exact Hr1|].
    split; [rewrite Hp', Hp2; exact Hp1|].
    split; [rewrite Hsp', Hsp2; exact Hsp1|].
    rewrite Hs', Hs2.
    assert (scheduled s1' = scheduled s1) as -> by reflexivity.
    rewrite Hs1. simpl fan_out. rewrite <- !app_assoc. reflexivity.
Qed.

(** What a concurrent [stop()] leaves of a state whose worker is running:
    the run flag is down and a termination was asked for. *)
Lemma stop_running (s : state) (p : Popen) (t : Thread) :
  attr.process (this s) = Some p ->
  attr.daemon_thread (this s) = Some t ->
  stop s
  = (Return tt,
     {| REGISTERED_PROCESSES := REGISTERED_PROCESSES s;
        this := attr.set_daemon_thread_running (Some false) (this s);
        proc_table := proc_table s;
        trace := Terminate (pid p) :: trace s |}).
Proof.
  intros Hp Ht. unfold stop. run_M. simpl. rewrite Hp. simpl.
  rewrite Ht. reflexivity.
Qed.

(** A run whose worker starts, whose lines all give a record and whose
    exit status is collected. *)
Lemma run_good (w : worker_run) (s : state)
    (a : AccountConfig) (n kt c p : Z) (ent : ps_entry)
    (L : gset LogListener) (lp : EventLoop) (rs : list ProcessLog) :
  is_Some (attr.cwd (this s)) ->
  attr.account (this s) = Some a ->
  attr.log_counter (this s) = Some n ->
  attr.log_listeners (this s) = Some L ->
  attr.loop (this s) = Some lp ->
  attr.kill_timeout (this s) = Some kt ->
  is_Some (attr.daemon_thread (this s)) ->
  w_spawn w = Some (p, ent) ->
  Forall2 builds (w_output w) rs ->
  w_exit w = Some c ->
  exists s',
    _daemon_thread_runner w s = (Return (Some c), s')
    /\ attr.log_counter (this s') = Some (n + Z.of_nat (length (w_output w)))
    /\ scheduled s' = scheduled s ++ fan_out L rs
    /\ attr.process (this s') = Some {| pid := p; returncode := Some c |}
    /\ spawns s' = S (spawns s).
Proof.
  intros [cwd Hcwd] Ha Hn HL Hlp Hkt [t Ht] Hw Hrs Hc.
  set (s2 := (setattr (attr.set_process
                         (Some {| pid := p; returncode := None |}))
                (with_worker p ent s)).2).
  destruct (read_lines_good _ _ Hrs s2 a n L lp)
    as (s3 & Hread & Ht3 & _ & Hp3 & Hsp3 & Hs3);
    try (subst s2; simpl; assumption).
  set (s4 := ((if w_stop w then stop else mret tt) s3).2).
  assert ((if w_stop w then stop else mret tt) s3 = (Return tt, s4)
          /\ attr.process (this s4) = Some {| pid := p; returncode := None |}
          /\ attr.kill_timeout (this s4) = Some kt
          /\ attr.log_counter (this s4)
             = Some (n + Z.of_nat (length (w_output w)))
          /\ scheduled s4 = scheduled s3 /\ spawns s4 = spawns s3)
    as (Hstop & Hp4 & Hkt4 & Hn4 & Hs4 & Hsp4).
  { subst s4. destruct (w_stop w).
    - rewrite (stop_running s3 {| pid := p; returncode := None |} t)
        by (rewrite Ht3; subst s2; simpl; first [reflexivity | assumption]).
      simpl. rewrite Ht3. simpl. rewrite Hkt.
      repeat split; try reflexivity.
      unfold scheduled. simpl. rewrite omap_app. simpl. apply app_nil_r.
    - simpl. rewrite Ht3. simpl. rewrite Hkt. repeat split; reflexivity. }
  eexists. split.
  { unfold _daemon_thread_runner.
    rewrite (bind_getattr _ _ _ _ _ Hcwd).
    unfold mbind at 1, M_bind at 1. rewrite (spawn_Some _ _ _ _ Hw).
    unfold mbind at 1, M_bind at 1.
    change (setattr (attr.set_process
                       (Some {| pid := p; returncode := None |}))
              (with_worker p ent s)) with (Return tt, s2).
    unfold mbind at 1, M_bind at 1. rewrite Hread.
    unfold mbind at 1, M_bind at 1. rewrite Hstop.
    unfold mbind at 1, M_bind at 1, get_process at 1. rewrite Hp4.
    run_M. simpl. rewrite Hkt4, Hc. simpl. reflexivity. }
  simpl. repeat split.
  - exact Hn4.
  - rewrite (scheduled_cons (Terminate p) s4) by reflexivity.
    rewrite app_nil_r, Hs4, Hs3. f_equal.
    rewrite (scheduled_cons (Spawned p) s s2) by reflexivity.
    apply app_nil_r.
  - unfold spawns at 1. simpl. fold (spawns s4). rewrite Hsp4, Hsp3.
    reflexivity.
Qed.

(** X7: a run whose worker starts, whose lines all give a record and whose
    exit status is collected returns that status; every line is counted,
    every record is handed to every registered listener, line after line,
    and the handle keeps the exit code. *)
Theorem run_dispatches_every_line (w : worker_run) (s : state)
    (a : AccountConfig) (n kt c p : Z) (ent : ps_entry)
    (L : gset LogListener) (lp : EventLoop) (rs : list ProcessLog) :
  is_Some (attr.cwd (this s)) ->
  attr.account (this s) = Some a ->
  attr.log_counter (this s) = Some n ->
  attr.log_listeners (this s) = Some L ->
  attr.loop (this s) = Some lp ->
  attr.kill_timeout (this s) = Some kt ->
  is_Some (attr.daemon_thread (this s)) ->
  w_spawn w = Some (p, ent) ->
  Forall2 builds (w_output w) rs ->
  w_exit w = Some c ->
  exists s',
    _daemon_thread_runner w s = (Return (Some c), s')
    /\ attr.log_counter (this s') = Some (n + Z.of_nat (length (w_output w)))
    /\ scheduled s' = scheduled s ++ fan_out L rs
    /\ attr.process (this s') = Some {| pid := p; returncode := Some c |}
    /\ spawns s' = S (spawns s).
Proof. apply run_good. Qed.

Lemma run_dispatches_every_line_witness :
  let s := (listen_log 3%nat (start (Scenario.supervisor 1 0)).2).2 in
  let r := {| raw := "[2024-01-01 00:00:00] [INFO]: ready";
              time := {| year := 2024; month := 1; day := 1;
                         hour := 0; minute := 0; second := 0 |};
              level := Some "INFO"; message := Some "ready" |} in
  exists s',
    _daemon_thread_runner Scenario.ready_run s = (Return (Some 0), s')
    /\ attr.log_counter (this s')
       = Some (0 + Z.of_nat (length (w_output Scenario.ready_run)))
    /\ scheduled s' = scheduled s ++ fan_out ({[3%nat]} ∪ ∅) [r]
    /\ attr.process (this s') = Some {| pid := 4242; returncode := Some 0 |}
    /\ spawns s' = S (spawns s).
Proof.
  apply (run_dispatches_every_line Scenario.ready_run
           (listen_log 3%nat (start (Scenario.supervisor 1 0)).2).2
           Scenario.account 0 5 0 4242 Scenario.entry ({[3%nat]} ∪ ∅) 0%nat);
    try reflexivity; try (eexists; reflexivity).
  constructor; [|constructor].
  split; [discriminate | vm_compute; reflexivity].
Defined.

Lemma read_lines_cons (line : str) (now : datetime)
    (rest : list (str * datetime)) (s : state) :
  line <> EmptyString ->
  read_lines ((line, now) :: rest) s
  = (count_line line ≫= fun _ =>
     log_model ← lift (parse_log now (strip line));
     listeners ← getattr "log_listeners" attr.log_listeners;
     dispatch (elements listeners) log_model;;
     read_lines rest) s.
Proof.
  intros Hne. simpl read_lines.
  destruct (String.eqb_spec line EmptyString) as [->|_]; [congruence|].
  unfold count_line, mbind, M_bind.
  destruct (contains READY_MARKER (strip line)).
  - destruct (getattr "account" attr.account s) as [[a|e] s0]; [|reflexivity].
    destruct (emit _ s0) as [[[]|e] s1]; [|reflexivity].
    destruct (getattr "log_counter" attr.log_counter s1) as [[n|e] s2];
      reflexivity.
  - unfold mret, M_ret.
    destruct (getattr "log_counter" attr.log_counter s) as [[n|e] s2];
      reflexivity.
Qed.

(** Counting a line touches the counter and the log, nothing else. *)
Lemma line_counted (line : str) (s : state) (a : AccountConfig) (n : Z) :
  attr.account (this s) = Some a ->
  attr.log_counter (this s) = Some n ->
  exists s1,
    count_line line s = (Return tt, s1)
    /\ this s1 = attr.set_log_counter (Some (n + 1)) (this s)
    /\ REGISTERED_PROCESSES s1 = REGISTERED_PROCESSES s
    /\ proc_table s1 = proc_table s
    /\ scheduled s1 = scheduled s.
Proof.
  intros Ha Hn. unfold count_line.
  destruct (contains READY_MARKER (strip line)); run_M; simpl.
  - rewrite Ha. simpl. rewrite Hn.
    eexists. split; [reflexivity|]. simpl. repeat split.
    match goal with
    | |- scheduled ?st = _ =>
        rewrite (scheduled_cons
                   (LogInfo ("go-cqhttp for " +:+ pretty (uin a)
                             +:+ " has successfully started.")) s st)
          by reflexivity
    end.
    apply app_nil_r.
  - rewrite Hn. eexists. split; [reflexivity|]. simpl. repeat split.
Qed.

(** Lines whose records build, then a line whose record does not: the
    reading stops there with the exception; the failing line is counted
    and not dispatched. *)
Lemma read_lines_bad (pre : list (str * datetime)) (rs : list ProcessLog)
    (line : str) (now : datetime) (post : list (str * datetime)) (e : exn) :
  Forall2 builds pre rs ->
  line <> EmptyString ->
  parse_log now (strip line) = Raise e ->
  forall (s : state) (a : AccountConfig) (n : Z) (L : gset LogListener)
         (lp : EventLoop),
    attr.account (this s) = Some a ->
    attr.log_counter (this s) = Some n ->
    attr.log_listeners (this s) = Some L ->
    attr.loop (this s) = Some lp ->
    exists s',
      read_lines (pre ++ (line, now) :: post) s = (Raise e, s')
      /\ this s'
         = attr.set_log_counter (Some (n + Z.of_nat (length pre) + 1)) (this s)
      /\ proc_table s' = proc_table s
      /\ scheduled s' = scheduled s ++ fan_out L rs.
Proof.
  intros Hpre Hne He.
  induction Hpre as [|[line0 now0] r pre rs [Hne0 Hr0] Hall IH];
    intros s a n L lp Ha Hn HL Hlp.
  - destruct (line_counted line s a n Ha Hn) as (s1 & Hc & Ht1 & _ & Hp1 & Hs1).
    exists s1. split.
    { simpl app. rewrite read_lines_cons by exact Hne.
      unfold mbind at 1, M_bind at 1. rewrite Hc.
      unfold mbind, M_bind, lift. rewrite He. reflexivity. }
    rewrite Ht1, Hs1. simpl. rewrite Z.add_0_r, app_nil_r. auto.
  - simpl in Hne0, Hr0.
    destruct (line_counted line0 s a n Ha Hn) as (s1 & Hc & Ht1 & _ & Hp1 & Hs1).
    destruct (dispatch_all (elements L) r lp s1)
      as (s2 & Hd & Ht2 & _ & Hp2 & _ & Hs2); [rewrite Ht1; exact Hlp|].
    destruct (IH s2 a (n + 1) L lp) as (s' & Hrl & Ht' & Hp' & Hs');
      try (rewrite Ht2, Ht1; assumption); [rewrite Ht2, Ht1; reflexivity|].
    exists s'. split.
    { simpl app. rewrite read_lines_cons by exact Hne0.
      unfold mbind at 1, M_bind at 1. rewrite Hc.
      unfold mbind at 1, M_bind at 1, lift at 1. rewrite Hr0.
      rewrite (bind_getattr _ _ _ _ L) by (rewrite Ht1; exact HL).
      unfold mbind at 1, M_bind at 1. rewrite Hd. exact Hrl. }
    split.
    { rewrite Ht', Ht2, Ht1. simpl.
      replace (n + 1 + Z.of_nat (length pre) + 1)
        with (n + Z.of_nat (S (length pre)) + 1) by lia.
      reflexivity. }
    split; [rewrite Hp', Hp2; exact Hp1|].
    rewrite Hs', Hs2, Hs1. simpl fan_out. rewrite <- !app_assoc. reflexivity.
Qed.

(** ** Runs that raise *)

Lemma bind_Raise {A B} (c : M A) (f : A -> M B) (s s' : state) (e : exn) :
  (c ≫= f) s = (Raise e, s') ->
  c s = (Raise e, s')
  \/ exists a s1, c s = (Return a, s1) /\ f a s1 = (Raise e, s').
Proof.
  unfold mbind, M_bind. destruct (c s) as [[a|e0] s1]; intros H.
  - right. eauto.
  - left. injection H as -> ->. reflexivity.
Qed.

(** Whatever a run raises once the worker is started, it raises before the
    exit status is collected: the handle has no exit code and the pid is
    still in the process table. *)
Lemma run_raise_keeps_worker (w : worker_run) (s s' : state) (e : exn)
    (p : Z) (ent : ps_entry) :
  is_Some (attr.cwd (this s)) ->
  w_spawn w = Some (p, ent) ->
  _daemon_thread_runner w s = (Raise e, s') ->
  attr.process (this s') = Some {| pid := p; returncode := None |}
  /\ proc_table s' !! p = Some ent.
Proof.
  intros [cwd Hcwd] Hw. unfold _daemon_thread_runner.
  rewrite (bind_getattr _ _ _ _ _ Hcwd).
  unfold mbind at 1, M_bind at 1. rewrite (spawn_Some _ _ _ _ Hw).
  unfold mbind at 1, M_bind at 1.
  set (s2 := (setattr (attr.set_process
                         (Some {| pid := p; returncode := None |}))
                (with_worker p ent s)).2).
  change (setattr (attr.set_process (Some {| pid := p; returncode := None |}))
            (with_worker p ent s)) with (Return tt, s2).
  assert (forall s3, same_handle s2 s3 ->
            attr.process (this s3) = Some {| pid := p; returncode := None |}
            /\ proc_table s3 !! p = Some ent) as Hkeep.
  { intros s3 [Hp Ht]. rewrite Hp, Ht. subst s2. simpl.
    split; [reflexivity | apply lookup_insert_eq]. }
  intros H.
  apply bind_Raise in H as [H | ([] & s3 & Hread & H)].
  { apply Hkeep. pose proof (read_lines_handle (w_output w) s2) as Hk.
    rewrite H in Hk. exact Hk. }
  assert (same_handle s2 s3) as H23.
  { pose proof (read_lines_handle (w_output w) s2) as Hk.
    rewrite Hread in Hk. exact Hk. }
  apply bind_Raise in H as [H | ([] & s4 & Hstop & H)].
  { apply Hkeep. etransitivity; [exact H23|].
    destruct (w_stop w); [|discriminate H].
    pose proof (stop_handle s3) as Hk. rewrite H in Hk. exact Hk. }
  assert (same_handle s2 s4) as H24.
  { etransitivity; [exact H23|]. destruct (w_stop w).
    - pose proof (stop_handle s3) as Hk. rewrite Hstop in Hk. exact Hk.
    - revert Hstop. run_M. intros [= <-]. reflexivity. }
  destruct (Hkeep s4 H24) as [Hp4 Ht4].
  apply bind_Raise in H as [H | (p1 & s5 & Hget & H)]; [discriminate H|].
  revert Hget. unfold get_process. rewrite Hp4. intros [= <- <-].
  apply bind_Raise in H as [H | ([] & s6 & Hexit & H)].
  - (* the timeout attribute or the wait *)
    simpl in H. revert H. run_M. simpl.
    destruct (attr.kill_timeout (this s4)).
    + destruct (w_exit w); [discriminate|]. intros [= <- <-]. simpl. auto.
    + intros [= <- <-]. simpl. auto.
  - (* past the wait nothing raises *)
    simpl in Hexit. revert Hexit. run_M. simpl.
    destruct (attr.kill_timeout (this s4)); [|discriminate].
    destruct (w_exit w); [|discriminate].
    intros [= <-]. revert H. run_M. simpl. discriminate.
Qed.

(** X8: when a line of the output gives no record, the run ends there with
    the exception of the record: the lines before it were dispatched, the
    line itself is counted and not dispatched, the lines after it are not
    read, and the worker is left in the process table, not waited for. *)
Theorem run_stops_at_the_line_without_record (w : worker_run) (s : state)
    (a : AccountConfig) (n p : Z) (ent : ps_entry) (L : gset LogListener)
    (lp : EventLoop) (pre post : list (str * datetime))
    (rs : list ProcessLog) (line : str) (now : datetime) (e : exn) :
  is_Some (attr.cwd (this s)) ->
  attr.account (this s) = Some a ->
  attr.log_counter (this s) = Some n ->
  attr.log_listeners (this s) = Some L ->
  attr.loop (this s) = Some lp ->
  w_spawn w = Some (p, ent) ->
  w_output w = pre ++ (line, now) :: post ->
  Forall2 builds pre rs ->
  line <> EmptyString ->
  parse_log now (strip line) = Raise e ->
  exists s',
    _daemon_thread_runner w s = (Raise e, s')
    /\ attr.log_counter (this s') = Some (n + Z.of_nat (length pre) + 1)
    /\ scheduled s' = scheduled s ++ fan_out L rs
    /\ attr.process (this s') = Some {| pid := p; returncode := None |}
    /\ proc_table s' !! p = Some ent.
Proof.
  intros Hcwd Ha Hn HL Hlp Hw Hout Hpre Hne He.
  set (s2 := (setattr (attr.set_process
                         (Some {| pid := p; returncode := None |}))
                (with_worker p ent s)).2).
  destruct (read_lines_bad pre rs line now post e Hpre Hne He s2 a n L lp)
    as (s' & Hread & Ht' & Hp' & Hs'); try (subst s2; simpl; assumption).
  assert (_daemon_thread_runner w s = (Raise e, s')) as Hrun.
  { destruct Hcwd as [cwd Hcwd]. unfold _daemon_thread_runner.
    rewrite (bind_getattr _ _ _ _ _ Hcwd).
    unfold mbind at 1, M_bind at 1. rewrite (spawn_Some _ _ _ _ Hw).
    unfold mbind at 1, M_bind at 1.
    change (setattr (attr.set_process
                       (Some {| pid := p; returncode := None |}))
              (with_worker p ent s)) with (Return tt, s2).
    unfold mbind at 1, M_bind at 1. rewrite Hout, Hread. reflexivity. }
  exists s'. split; [exact Hrun|].
  split; [rewrite Ht'; reflexivity|].
  split.
  { rewrite Hs'. f_equal.
    rewrite (scheduled_cons (Spawned p) s s2) by reflexivity.
    apply app_nil_r. }
  exact (run_raise_keeps_worker w s s' e p ent Hcwd Hw Hrun).
Qed.

Lemma run_stops_at_the_line_without_record_witness :
  let s := (listen_log 3%nat (start (Scenario.supervisor 1 0)).2).2 in
  let w := {| w_spawn := Some (4242, Scenario.entry);
              w_output :=
                [(Scenario.line "[2024-01-01 00:00:00] [INFO]: ready",
                  Scenario.clock);
                 (Scenario.line "[2024-13-01 00:00:00] [INFO]: x",
                  Scenario.clock);
                 (Scenario.line "never read", Scenario.clock)];
              w_stop := false; w_exit := Some 0 |} in
  let r := {| raw := "[2024-01-01 00:00:00] [INFO]: ready";
              time := {| year := 2024; month := 1; day := 1;
                         hour := 0; minute := 0; second := 0 |};
              level := Some "INFO"; message := Some "ready" |} in
  exists s',
    _daemon_thread_runner w s = (Raise (ValidationError "time"), s')
    /\ attr.log_counter (this s') = Some (0 + Z.of_nat 1 + 1)
    /\ scheduled s' = scheduled s ++ fan_out ({[3%nat]} ∪ ∅) [r]
    /\ attr.process (this s') = Some {| pid := 4242; returncode := None |}
    /\ proc_table s' !! 4242 = Some Scenario.entry.
Proof.
  apply (run_stops_at_the_line_without_record
           {| w_spawn := Some (4242, Scenario.entry);
              w_output :=
                [(Scenario.line "[2024-01-01 00:00:00] [INFO]: ready",
                  Scenario.clock);
                 (Scenario.line "[2024-13-01 00:00:00] [INFO]: x",
                  Scenario.clock);
                 (Scenario.line "never read", Scenario.clock)];
              w_stop := false; w_exit := Some 0 |}
           (listen_log 3%nat (start (Scenario.supervisor 1 0)).2).2
           Scenario.account 0 4242 Scenario.entry ({[3%nat]} ∪ ∅) 0%nat
           [(Scenario.line "[2024-01-01 00:00:00] [INFO]: ready",
             Scenario.clock)]
           [(Scenario.line "never read", Scenario.clock)]
           [{| raw := "[2024-01-01 00:00:00] [INFO]: ready";
               time := {| year := 2024; month := 1; day := 1;
                          hour := 0; minute := 0; second := 0 |};
               level := Some "INFO"; message := Some "ready" |}]
           (Scenario.line "[2024-13-01 00:00:00] [INFO]: x")
           Scenario.clock (ValidationError "time"));
    try reflexivity; try (eexists; reflexivity); try discriminate.
  constructor; [|constructor].
  split; [discriminate | vm_compute; reflexivity].
Defined.

(** X9: an exception that leaves a run after the worker was started leaves
    the worker behind: its handle has no exit code and its pid is still in
    the process table when the loop goes on to the next run. *)
Theorem exception_abandons_the_worker (w : worker_run) (s s' : state)
    (e : exn) (p : Z) (ent : ps_entry) :
  is_Some (attr.cwd (this s)) ->
  w_spawn w = Some (p, ent) ->
  _daemon_thread_runner w s = (Raise e, s') ->
  attr.process (this s') = Some {| pid := p; returncode := None |}
  /\ proc_table s' !! p = Some ent.
Proof. apply run_raise_keeps_worker. Qed.

Lemma exception_abandons_the_worker_witness :
  let s := (start (Scenario.supervisor 1 0)).2 in
  let w := {| w_spawn := Some (4242, Scenario.entry);
              w_output :=
                [(Scenario.line "[2024-02-30 00:00:00] [INFO]: x",
                  Scenario.clock)];
              w_stop := false; w_exit := Some 0 |} in
  attr.process (this (_daemon_thread_runner w s).2)
  = Some {| pid := 4242; returncode := None |}
  /\ proc_table (_daemon_thread_runner w s).2 !! 4242 = Some Scenario.entry.
Proof.
  apply (exception_abandons_the_worker
           {| w_spawn := Some (4242, Scenario.entry);
              w_output :=
                [(Scenario.line "[2024-02-30 00:00:00] [INFO]: x",
                  Scenario.clock)];
              w_stop := false; w_exit := Some 0 |}
           (start (Scenario.supervisor 1 0)).2
           _ (ValidationError "time") 4242 Scenario.entry).
  - eexists. reflexivity.
  - reflexivity.
  - vm_compute. reflexivity.
Defined.

(** ** What a listener receives *)

Lemma filter_the_one (c : nat) (l : list nat) :
  NoDup l -> c ∈ l -> List.filter (fun x => Nat.eqb x c) l = [c].
Proof.
  induction 1 as [|x l Hx Hnd IH]; intros Hin.
  - inversion Hin.
  - simpl. destruct (Nat.eqb_spec x c) as [->|Hne].
    + f_equal. clear IH Hin Hnd. induction l as [|y l IHl]; [reflexivity|].
      simpl. destruct (Nat.eqb_spec y c) as [->|_].
      * exfalso. apply Hx. constructor.
      * apply IHl. intros H. apply Hx. now constructor.
    + apply IH. apply elem_of_cons in Hin as [->|Hin]; [congruence | exact Hin].
Qed.

Lemma filter_fan_out (c : LogListener) (L : gset LogListener)
    (rs : list ProcessLog) :
  c ∈ L ->
  map snd (List.filter (fun q => Nat.eqb q.1 c) (fan_out L rs)) = rs.
Proof.
  intros Hc. unfold fan_out, LogListener in *.
  induction rs as [|r rs IH]; [reflexivity|].
  simpl flat_map. rewrite List.filter_app, map_app, IH. clear IH.
  assert (List.filter (fun q : nat * ProcessLog => Nat.eqb q.1 c)
            (map (fun l => (l, r)) (elements L))
          = map (fun l => (l, r))
              (List.filter (fun x => Nat.eqb x c) (elements L))) as ->.
  { induction (elements L) as [|x l IHl]; [reflexivity|].
    simpl. destruct (Nat.eqb x c); simpl; now rewrite IHl. }
  rewrite (filter_the_one c (elements L));
    [reflexivity | apply NoDup_elements | now apply elem_of_elements].
Qed.

(** X10: a callback registered with [listen_log] before a run receives the
    record of every line of that run exactly once, in the order of the
    output, provided the records all build. *)
Theorem registered_listener_receives_every_record (c : LogListener)
    (w : worker_run) (s : state) (a : AccountConfig) (n kt code p : Z)
    (ent : ps_entry) (L : gset LogListener) (lp : EventLoop)
    (rs : list ProcessLog) :
  is_Some (attr.cwd (this s)) ->
  attr.account (this s) = Some a ->
  attr.log_counter (this s) = Some n ->
  attr.log_listeners (this s) = Some L ->
  attr.loop (this s) = Some lp ->
  attr.kill_timeout (this s) = Some kt ->
  is_Some (attr.daemon_thread (this s)) ->
  w_spawn w = Some (p, ent) ->
  Forall2 builds (w_output w) rs ->
  w_exit w = Some code ->
  exists s1 s2,
    listen_log c s = (Return c, s1)
    /\ _daemon_thread_runner w s1 = (Return (Some code), s2)
    /\ received c s2 = received c s ++ rs.
Proof.
  intros Hcwd Ha Hn HL Hlp Hkt Hth Hw Hrs Hc.
  set (s1 := (listen_log c s).2).
  assert (listen_log c s = (Return c, s1)) as Hl.
  { subst s1. unfold listen_log. run_M. rewrite HL. reflexivity. }
  assert (this s1 = attr.set_log_listeners (Some ({[c]} ∪ L)) (this s)
          /\ scheduled s1 = scheduled s) as [Ht1 Hs1].
  { subst s1. unfold listen_log. run_M. rewrite HL. split; reflexivity. }
  destruct (run_good w s1 a n kt code p ent ({[c]} ∪ L) lp rs)
    as (s2 & Hrun & _ & Hsch & _); try (rewrite Ht1; simpl; assumption);
    try assumption; [rewrite Ht1; reflexivity|].
  exists s1, s2. split; [exact Hl|]. split; [exact Hrun|].
  unfold received. rewrite Hsch, Hs1, List.filter_app, map_app.
  f_equal. apply filter_fan_out. set_solver.
Qed.

Lemma registered_listener_receives_every_record_witness :
  let s := (listen_log 5%nat (start (Scenario.supervisor 1 0)).2).2 in
  let r := {| raw := "garbage output"; time := Scenario.clock;
              level := None; message := None |} in
  exists s1 s2,
    listen_log 3%nat s = (Return 3%nat, s1)
    /\ _daemon_thread_runner Scenario.garbage_run s1 = (Return (Some 1), s2)
    /\ received 3%nat s2 = received 3%nat s ++ [r].
Proof.
  apply (registered_listener_receives_every_record 3%nat
           Scenario.garbage_run
           (listen_log 5%nat (start (Scenario.supervisor 1 0)).2).2
           Scenario.account 0 5 1 4242 Scenario.entry ({[5%nat]} ∪ ∅) 0%nat);
    try reflexivity; try (eexists; reflexivity).
  constructor; [|constructor].
  split; [discriminate | vm_compute; reflexivity].
Defined.

(** ** The loop without a bound, and [stop] *)

(** X11: with a negative [max_restarts] (the default, -1) the loop never
    ends by itself: as long as nobody calls [stop()], it takes every run
    of the script, however long, and asks for one more. *)
Theorem unbounded_loop_wants_another_run (world : list worker_run) :
  forall (k : nat) (s : state) (a : AccountConfig) (m interval r : Z),
    ready s a m interval ->
    attr.restarted (this s) = Some r ->
    0 <= interval ->
    m < 0 ->
    Forall (fun w => w_stop w = false) world ->
    daemon_thread_runner world k s = None.
Proof.
  induction world as [|w world IH];
    intros k s a m interval r Hready Hr Hint Hm Hstop.
  - simpl. rewrite (loop_guard_open k s m);
      [reflexivity | apply Hready | apply Hready | lia].
  - destruct (rd_daemon_thread _ _ _ _ Hready) as [t Ht].
    inversion Hstop as [|? ? Hw Hstop']; subst.
    simpl daemon_thread_runner.
    rewrite (loop_guard_open k s m);
      [| apply Hready | apply Hready | lia].
    destruct (_daemon_thread_runner w s) as [[code|e] s1] eqn:Hrun.
    + rewrite (iteration_returned w k s a m interval r
                 (rd_account _ _ _ _ Hready) (rd_max_restarts _ _ _ _ Hready)
                 Hr (rd_restart_interval _ _ _ _ Hready) Hint code s1 Hrun).
      apply (IH (S k) _ a m interval (r + 1));
        [eapply ready_after_iteration; eauto | reflexivity | lia | lia
        | assumption].
    + rewrite (iteration_raised w k s a m interval r t
                 (rd_account _ _ _ _ Hready) (rd_max_restarts _ _ _ _ Hready)
                 Ht Hr (rd_restart_interval _ _ _ _ Hready) Hint e s1 Hrun).
      apply (IH (S k) _ a m interval (r + 1));
        [eapply ready_after_iteration; eauto | reflexivity | lia | lia
        | assumption].
Qed.

Lemma unbounded_loop_wants_another_run_witness :
  daemon_thread_runner
    [Scenario.ready_run; Scenario.garbage_run; Scenario.failing_run] 0
    (start (Scenario.supervisor (-1) 3)).2
  = None.
Proof.
  apply (unbounded_loop_wants_another_run
           [Scenario.ready_run; Scenario.garbage_run; Scenario.failing_run]
           0 (start (Scenario.supervisor (-1) 3)).2 Scenario.account (-1) 3 0).
  - split; first [reflexivity | eexists; reflexivity].
  - reflexivity.
  - lia.
  - lia.
  - repeat constructor.
Defined.



Lemma start_of_a_started_thread (s : state) (t : Thread) :
  attr.daemon_thread (this s) = Some t ->
  started t = true ->
  start s
  = (Raise (RuntimeError "threads can only be started once"),
     {| REGISTERED_PROCESSES := REGISTERED_PROCESSES s;
        this := attr.set_daemon_thread_running (Some true) (this s);
        proc_table := proc_table s;
        trace := trace s |}).
Proof.
  intros Ht Hs. unfold start, Thread_start. run_M. simpl.
  rewrite Ht, Hs. reflexivity.
Qed.

(** X13: a supervisor that was started and stopped cannot be started
    again: the first [start()] returns, [stop()] returns, and the second
    [start()] raises, its thread being used up; it has put the run flag
    back up before it raises, so that the stopped supervisor is left with
    the flag up, and nothing else of it has changed since [stop()]. *)
Theorem start_stop_start_raises (s : state) (t : Thread) :
  attr.daemon_thread (this s) = Some t ->
  started t = false ->
  exists s1 s2 s3,
    start s = (Return tt, s1)
    /\ stop s1 = (Return tt, s2)
    /\ start s2
       = (Raise (RuntimeError "threads can only be started once"), s3)
    /\ attr.daemon_thread_running (this s2) = Some false
    /\ attr.daemon_thread_running (this s3) = Some true
    /\ this s3 = attr.set_daemon_thread_running (Some true) (this s2)
    /\ trace s3 = trace s2
    /\ proc_table s3 = proc_table s.
Proof.
  intros Ht Hs.
  assert (exists s1, start s = (Return tt, s1)
                     /\ attr.daemon_thread (this s1)
                        = Some {| name := name t; started := true |}
                     /\ proc_table s1 = proc_table s)
    as (s1 & Hstart & Ht1 & Hp1).
  { unfold start, Thread_start. run_M. simpl. rewrite Ht, Hs.
    eexists. split; [reflexivity|]. split; reflexivity. }
  assert (exists s2, stop s1 = (Return tt, s2)
                     /\ attr.daemon_thread_running (this s2) = Some false
                     /\ attr.daemon_thread (this s2)
                        = Some {| name := name t; started := true |}
                     /\ proc_table s2 = proc_table s1)
    as (s2 & Hstop & Hf2 & Ht2 & Hp2).
  { unfold stop. run_M. simpl.
    destruct (attr.process (this s1)) as [p|]; simpl; rewrite Ht1;
      (eexists; split; [reflexivity|]); simpl;
      (split; [reflexivity|]); (split; [exact Ht1 | reflexivity]). }
  eexists s1, s2, _. split; [exact Hstart|]. split; [exact Hstop|].
  split; [exact (start_of_a_started_thread s2 _ Ht2 eq_refl)|].
  split; [exact Hf2|]. simpl.
  split; [reflexivity|]. split; [reflexivity|]. split; [reflexivity|].
  congruence.
Qed.

Lemma start_stop_start_raises_witness :
  let s := Scenario.supervisor (-1) 3 in
  exists s1 s2 s3,
    start s = (Return tt, s1)
    /\ stop s1 = (Return tt, s2)
    /\ start s2
       = (Raise (RuntimeError "threads can only be started once"), s3)
    /\ attr.daemon_thread_running (this s2) = Some false
    /\ attr.daemon_thread_running (this s3) = Some true
    /\ this s3 = attr.set_daemon_thread_running (Some true) (this s2)
    /\ trace s3 = trace s2
    /\ proc_table s3 = proc_table s.
Proof.
  apply (start_stop_start_raises (Scenario.supervisor (-1) 3)
           {| name := "10001-Daemon"; started := false |}).
  - vm_compute. reflexivity.
  - reflexivity.
Defined.

(** ** The counters *)

Lemma not_below_refl (x : option Z) : not_below x x.
Proof. destruct x; simpl; [lia | exact I]. Qed.

Lemma not_below_trans (x y z : option Z) :
  not_below x y -> not_below y z -> not_below x z.
Proof. destruct x, y, z; simpl; try tauto; lia. Qed.

#[global] Instance counters_grow_preorder : PreOrder counters_grow.
Proof.
  split.
  - intros s. split; apply not_below_refl.
  - intros s1 s2 s3 [] []. split; eapply not_below_trans; eassumption.
Qed.

Lemma emit_grow (e : event) : keeps counters_grow (emit e).
Proof. intros s. split; apply not_below_refl. Qed.

Lemma set_table_grow (f : gmap Z ps_entry -> gmap Z ps_entry) :
  keeps counters_grow (set_table f).
Proof. intros s. split; apply not_below_refl. Qed.

Lemma set_process_grow (p : option Popen) :
  keeps counters_grow (setattr (attr.set_process p)).
Proof. intros s. split; apply not_below_refl. Qed.

Lemma set_flag_grow (b : option bool) :
  keeps counters_grow (setattr (attr.set_daemon_thread_running b)).
Proof. intros s. split; apply not_below_refl. Qed.

#[global] Hint Resolve emit_grow set_table_grow set_process_grow
  set_flag_grow : keeps.









(** ** The console listener, [status], the parser *)







